(** * SecurityReport.js: the report page component of the Monkey Island UI

    A shallow embedding of [ReportPageComponent]
    (monkey_island/cc/ui/src/components/report-components/SecurityReport.js)
    and the properties of its report assembly. *)

From Stdlib Require Import ZArith List Bool Lia Permutation.
From Stdlib Require Import Floats.SpecFloat.
From stdpp Require Import base option list strings gmap.

Set Warnings "-register-all".
Local Open Scope string_scope.

(** ** JavaScript values *)

Module JS.

(** A JS number is an IEEE 754 binary64 value. *)
Definition prec : Z := 53.
Definition emax : Z := 1024.
Definition number : Type := spec_float.

Definition num_of_Z (z : Z) : number := binary_normalize prec emax z 0 false.
Definition num_of_nat (n : nat) : number := num_of_Z (Z.of_nat n).
Definition num_mul : number -> number -> number := SFmul prec emax.
Definition num_div : number -> number -> number := SFdiv prec emax.
(** [x > y] *)
Definition num_gt (x y : number) : bool := SFltb y x.

(** [Number.isFinite] *)
Definition isFinite (x : number) : bool :=
  match x with
  | S754_zero _ | S754_finite _ _ _ => true
  | S754_infinity _ | S754_nan => false
  end.

Inductive jsval : Type :=
| JUndefined
| JNull
| JBool (b : bool)
| JNum (x : number)
| JStr (s : string)
| JArr (items : list jsval)
| JObj (fields : list (string * jsval)).

(** ToBoolean, as applied by [if (v)] and [v ? a : b]. *)
Definition truthy (v : jsval) : bool :=
  match v with
  | JUndefined | JNull => false
  | JBool b => b
  | JNum (S754_zero _) | JNum S754_nan => false
  | JNum _ => true
  | JStr s => negb (String.eqb s "")
  | JArr _ | JObj _ => true
  end.

(** [v !== undefined] *)
Definition defined (v : jsval) : bool :=
  match v with
  | JUndefined => false
  | _ => true
  end.

(** [v === 'lit'] for a string literal. *)
Definition strict_eq_str (v : jsval) (lit : string) : bool :=
  match v with
  | JStr s => String.eqb s lit
  | _ => false
  end.

(** [v === false] *)
Definition strict_eq_false (v : jsval) : bool :=
  match v with
  | JBool b => negb b
  | _ => false
  end.

(** A plain object used as a record of optional fields. *)
Abbreviation object := (gmap string jsval).

(** lodash [_.has(o, k)]: [k] is an own key of [o]. *)
Definition has (o : object) (k : string) : bool :=
  match o !! k with
  | Some _ => true
  | None => false
  end.

(** [o.k]: the value under [k], [undefined] when the key is missing. *)
Definition get (o : object) (k : string) : jsval :=
  match o !! k with
  | Some v => v
  | None => JUndefined
  end.

(** [Set] of strings: insertion-ordered, membership by SameValueZero,
    which on strings is equality of the character sequences. *)
Definition Set_has (s : list string) (x : string) : bool :=
  existsb (String.eqb x) s.

Definition Set_add (s : list string) (x : string) : list string :=
  if Set_has s x then s else s ++ [x].

(** [new Set(iterable)] adds the elements in iteration order. *)
Definition new_Set (xs : list string) : list string :=
  fold_left Set_add xs [].

(** [[...set]]: the elements in insertion order. *)
Definition spread (s : list string) : list string := s.

(** Outcome of evaluating code that may throw. *)
Inductive error : Type := TypeError.

Inductive completion (A : Type) : Type :=
| Normal (a : A)
| Throw (e : error).
Arguments Normal {A} a.
Arguments Throw {A} e.

Definition bind {A B} (c : completion A) (k : A -> completion B) : completion B :=
  match c with
  | Normal a => k a
  | Throw e => Throw e
  end.

(** Reading a property of [undefined] throws a TypeError. *)
Definition deref {A} (field : option A) : completion A :=
  match field with
  | Some a => Normal a
  | None => Throw TypeError
  end.

(** A settled promise. *)
Inductive settled (A : Type) : Type :=
| Fulfilled (a : A)
| Rejected (reason : jsval).
Arguments Fulfilled {A} a.
Arguments Rejected {A} reason.

End JS.
Export JS.

#[export] Instance completion_bind : MBind completion :=
  fun A B k c => JS.bind c k.
#[export] Instance completion_ret : MRet completion := @Normal.

(** ** React elements *)

Inductive propval : Type :=
| PVal (v : jsval)
| PStyle (decls : list (string * string))
| PRef (binding : string)
| PArr (items : list propval)
| PFun (calls : string).

Inductive node : Type :=
| Text (s : string)
| Val (v : jsval)
| Elem (type : string) (props : list (string * propval)) (children : list node)
| Frag (children : list node)
| Arr (items : list node).

(** A literal JSX text [t] occurs somewhere in the tree. *)
Fixpoint has_text (t : string) (n : node) : bool :=
  match n with
  | Text s => String.eqb s t
  | Val _ => false
  | Elem _ _ cs | Frag cs | Arr cs => existsb (has_text t) cs
  end.

(** React renders nothing for [null], [undefined], booleans and the
    empty string. *)
Definition renders_nothing (n : node) : bool :=
  match n with
  | Val JUndefined | Val JNull | Val (JBool _) => true
  | Val (JStr s) => String.eqb s ""
  | _ => false
  end.

(** The children React mounts: arrays and fragments are spliced in,
    children that render nothing are dropped. *)
Fixpoint mounted (n : node) : list node :=
  match n with
  | Frag cs | Arr cs => flat_map mounted cs
  | _ => if renders_nothing n then [] else [n]
  end.

Definition mounted_children (cs : list node) : list node := flat_map mounted cs.

(** ** The component *)

(** An issue is a plain object: [type], [description],
    [remediation_suggestion] and [password_restored] are read from it,
    each of them optional. *)
Abbreviation Issue := (gmap string jsval).

(** What the component imports from modules outside this file. The
    record types of the server's inventory are opaque to the component:
    it only hands them to the imported functions. *)
Class Imports : Type := {
  Agent : Type;
  Machine : Type;
  Tunnel : Type;
  CrossSegmentIssue : Type;
  (* ../utils/ServerUtils *)
  getManuallyStartedAgents : list Agent -> list Agent;
  getMachineByAgent : Agent -> list Machine -> option Machine;
  getMachineByID : number -> list Machine -> option Machine;
  getMachineHostname : option Machine -> string;
  getMachineIPs : option Machine -> list string;
  (* ./security/issues/TunnelIssue *)
  getAllTunnels : list Agent -> list Machine -> list Tunnel;
  tunnelIssueReportByMachine : number -> list Tunnel -> option node;
  (* ./security/issues/CrossSegmentIssue *)
  crossSegmentIssueReport : CrossSegmentIssue -> node;
  (* ./security/issues/ZerologonIssue *)
  zerologonOverviewWithFailedPassResetWarning : node;
  (* pluralize, and the built-ins Math.round, parseInt, JSON.stringify *)
  Pluralize : string -> number -> string;
  Math_round : number -> number;
  parseInt : string -> number;
  JSON_stringify : Issue -> string
}.

Section Component.
Context `{Imports}.

Record Overview : Type := {
  monkey_start_time : jsval;
  monkey_duration : jsval;
  config_exploits : list string;
  config_ips : list string;
  config_scan : jsval
}.

Record Glance : Type := {
  exploited_cnt : number;
  scanned : list jsval
}.

(** [issues] lists the object's entries in the order of [Object.keys]. *)
Record Recommendations : Type := {
  issues : list (string * list Issue)
}.

(** The report object. A field is [None] when the object has no such key;
    [other_keys] are its remaining enumerable keys. The placeholder [{}]
    has no field and no other key. *)
Record Report : Type := {
  overview : option Overview;
  glance : option Glance;
  recommendations : option Recommendations;
  cross_segment_issues : option (list CrossSegmentIssue);
  other_keys : list string
}.

Definition empty_report : Report :=
  {| overview := None; glance := None; recommendations := None;
     cross_segment_issues := None; other_keys := [] |}.

Definition own_key {A} (k : string) (field : option A) : list string :=
  match field with
  | Some _ => [k]
  | None => []
  end.

(** [Object.keys(report)]; only its length is used. *)
Definition Object_keys (r : Report) : list string :=
  own_key "overview" (overview r) ++ own_key "glance" (glance r)
  ++ own_key "recommendations" (recommendations r)
  ++ own_key "cross_segment_issues" (cross_segment_issues r)
  ++ other_keys r.

Record State : Type := {
  report : Report;
  stolenCredentials : jsval;
  configuredCredentials : jsval;
  agents : list Agent;
  machines : list Machine
}.

(** [this]: the React state and the instance field [allTunnels]. *)
Record Component : Type := {
  state : State;
  allTunnels : list Tunnel
}.

Definition constructor (props_report : Report) : Component :=
  {| state := {| report := props_report;
                 stolenCredentials := JArr [];
                 configuredCredentials := JArr [];
                 agents := [];
                 machines := [] |};
     allTunnels := [] |}.

(** The argument of [setState]: the slots it names. *)
Record Patch : Type := {
  set_report : option Report;
  set_stolenCredentials : option jsval;
  set_configuredCredentials : option jsval;
  set_agents : option (list Agent);
  set_machines : option (list Machine)
}.

Definition no_patch : Patch :=
  {| set_report := None; set_stolenCredentials := None;
     set_configuredCredentials := None; set_agents := None;
     set_machines := None |}.

(** [this.setState(patch)] merges the named slots into the state. *)
Definition setState (p : Patch) (this : Component) : Component :=
  let st := state this in
  {| state := {| report := default (report st) (set_report p);
                 stolenCredentials := default (stolenCredentials st) (set_stolenCredentials p);
                 configuredCredentials :=
                   default (configuredCredentials st) (set_configuredCredentials p);
                 agents := default (agents st) (set_agents p);
                 machines := default (machines st) (set_machines p) |};
     allTunnels := allTunnels this |}.

(** *** JSX attribute shorthands *)

Definition className (c : string) : string * propval := ("className", PVal (JStr c)).
Definition key (k : string) : string * propval := ("key", PVal (JStr k)).
Definition style (decls : list (string * string)) : string * propval :=
  ("style", PStyle decls).

(** [&nbsp;], U+00A0 in UTF-8. *)
Definition nbsp : string :=
  String (Ascii.ascii_of_nat 194) (String (Ascii.ascii_of_nat 160) EmptyString).

(** [x => <li key={x}>{x}</li>] *)
Definition li_of (x : string) : node := Elem "li" [key x] [Val (JStr x)].

(** [<PrintReportButton onClick={() => { print(); }} />] *)
Definition print_button : node :=
  Elem "PrintReportButton" [("onClick", PFun "print")] [].

(** [<ReactMarkdown plugins={[remarkBreaks]} linkTarget={'_blank'}
     className={'markdown'}>{text}</ReactMarkdown>] *)
Definition markdown (text : jsval) : node :=
  Elem "ReactMarkdown"
    [("plugins", PArr [PRef "remarkBreaks"]); ("linkTarget", PVal (JStr "_blank"));
     className "markdown"]
    [Val text].

(** *** Methods *)

Definition stillLoadingDataFromServer (this : Component) : bool :=
  Nat.eqb (length (Object_keys (report (state this)))) 0.

Definition getMonkeyDuration (this : Component) : completion node :=
  ov ← deref (overview (report (state this)));
  if truthy (monkey_duration ov) then
    mret (Frag [Text "After ";
                Elem "span" [className "badge badge-info"] [Val (monkey_duration ov)];
                Text ", all monkeys finished propagation attempts."])
  else mret (Frag []).

(** The local [manualMonkeyHostnames] of [generateReportOverviewSection]. *)
Definition manualMonkeyHostnames (this : Component) : list string :=
  map (fun agent => getMachineHostname (getMachineByAgent agent (machines (state this))))
      (getManuallyStartedAgents (agents (state this))).

Definition generateReportOverviewSection (this : Component) : completion node :=
  let st := state this in
  let manualMonkeyHostnames := manualMonkeyHostnames this in
  gl ← deref (glance (report st));
  ov ← deref (overview (report st));
  duration ← getMonkeyDuration this;
  mret (Elem "div" [("id", PVal (JStr "overview"))]
    [Elem "h2" [] [Text "Overview"];
     Elem "SecurityIssuesGlance"
       [("issuesFound", PVal (JBool (num_gt (exploited_cnt gl) (num_of_Z 0))))] [];
     (if num_gt (exploited_cnt gl) (num_of_Z 0) then Val (JStr "")
      else
        Elem "p" [className "alert alert-info"]
          [Elem "FontAwesomeIcon"
             [("icon", PRef "faExclamationTriangle"); style [("marginRight", "5px")]] [];
           Text "To improve Infection Monkey's detection rates, try adding credentials under ";
           Elem "b" [] [Text "Propagation - Credentials"];
           Text " and updating network settings under ";
           Elem "b" [] [Text "Propagation - Network analysis"];
           Text "."]);
     Elem "p" []
       [Text "The first monkey run was started on ";
        Elem "span" [className "badge badge-info"] [Val (monkey_start_time ov)];
        Text ". ";
        duration];
     Elem "p" []
       [Text "The monkey started propagating from the following machines where it was manually installed:"];
     Elem "ul" [] [Arr (map li_of (spread (new_Set manualMonkeyHostnames)))];
     Elem "AvailableCredentials"
       [("stolen", PVal (stolenCredentials st));
        ("configured", PVal (configuredCredentials st))] [];
     (if Nat.ltb 0 (length (config_exploits ov)) then
        Elem "p" []
          [Text "The Monkey attempted the following exploitation methods:";
           Elem "ul" [] [Arr (map li_of (config_exploits ov))]]
      else
        Elem "p" [] [Text "No exploiters were enabled."]);
     (if Nat.ltb 0 (length (config_ips ov)) then
        Elem "p" []
          [Text "The Monkey scans the following IPs:";
           Elem "ul" [] [Arr (map li_of (config_ips ov))]]
      else Val (JStr ""));
     (if truthy (config_scan ov) then Val (JStr "")
      else
        Elem "p" []
          [Text "Note: Monkeys were configured to avoid scanning of the local network."])]).

Definition generateIssue (issue : Issue) : node :=
  let remediation :=
    Elem "ReactMarkdown" [] [Text " 'No remediation available'"] in
  let description := Val (JStr "") in
  let remediation :=
    if has issue "remediation_suggestion"
       && defined (get issue "remediation_suggestion")
    then markdown (get issue "remediation_suggestion")
    else remediation in
  let description :=
    if has issue "description"
       && defined (get issue "description")
    then markdown (get issue "description")
    else description in
  let remediation :=
    if strict_eq_str (get issue "type") "ZerologonExploiter"
       && strict_eq_false (get issue "password_restored")
    then Frag [zerologonOverviewWithFailedPassResetWarning;
               Elem "br" [] [];
               Elem "li" [] [remediation]]
    else remediation in
  let reportContentComponent :=
    Elem "div" []
      [remediation;
       Elem "CollapsibleWellComponent" [] [description]] in
  Elem "li" [key (JSON_stringify issue)] [reportContentComponent].

Definition getTunnelIssue (this : Component) (machineId : number) : node :=
  match tunnelIssueReportByMachine machineId (allTunnels this) with
  | Some tunnelIssue => Elem "li" [key "tunneling-issue"] [tunnelIssue]
  | None => Val JNull
  end.

Definition generateIssues (this : Component) (issues : list (string * list Issue)) : node :=
  let issuesDivArray :=
    fold_left
      (fun issuesDivArray '(machineId, machineIssues) =>
         let machine := getMachineByID (parseInt machineId) (machines (state this)) in
         let hostname := getMachineHostname machine in
         let machineIPs := getMachineIPs machine in
         app issuesDivArray
         [Elem "li" [key machineId]
            [Elem "h4" []
               [Elem "b" []
                  [Val (JStr hostname); Text " (";
                   Val (JStr (String.concat ", " machineIPs)); Text ")"]];
             Elem "ol" []
               [Arr (map generateIssue machineIssues);
                getTunnelIssue this (parseInt machineId)]]])
      issues [] in
  Elem "ul" [] [Arr issuesDivArray].

Definition generateReportRecommendationsSection (this : Component) : completion node :=
  recs ← deref (recommendations (report (state this)));
  mret (Elem "div" [("id", PVal (JStr "recommendations"))]
    [(if negb (Nat.eqb (length (issues recs)) 0)
      then Elem "h2" [] [Text "Machine-related Recommendations"]
      else Val JNull);
     Elem "div" [] [generateIssues this (issues recs)]]).

Definition generateSegmentationSection (this : Component) : completion node :=
  csi ← deref (cross_segment_issues (report (state this)));
  if Nat.eqb (length csi) 0 then mret (Val (JStr ""))
  else
    mret (Elem "div" []
      [Elem "h2" [] [Text "Segmentation Issues"];
       Elem "div" []
         [Text "The Monkey uncovered the following set of segmentation issues:";
          Elem "ul" [] [Arr (map crossSegmentIssueReport csi)]]]).

Definition exploitPercentage (gl : Glance) : number :=
  num_div (num_mul (num_of_Z 100) (exploited_cnt gl)) (num_of_nat (length (scanned gl))).

Definition generateReportGlanceSection (this : Component) : completion node :=
  let st := state this in
  gl ← deref (glance (report st));
  let exploitPercentage := exploitPercentage gl in
  mret (Elem "div" [("id", PVal (JStr "glance"))]
    [Elem "h2" [] [Text "The Network from the Monkey's Eyes"];
     Elem "div" []
       [Elem "p" []
          [Text "The Monkey discovered ";
           Elem "span" [className "badge badge-warning"]
             [Val (JNum (num_of_nat (length (scanned gl))))];
           Text " machines and successfully breached ";
           Elem "span" [className "badge badge-danger"] [Val (JNum (exploited_cnt gl))];
           Text " of them."];
        Elem "div" [className "text-center"; style [("margin", "10px")]]
          [Elem "Line"
             [style [("width", "300px"); ("marginRight", "5px")];
              ("percent", PVal (JNum exploitPercentage));
              ("strokeWidth", PVal (JStr "4")); ("trailWidth", PVal (JStr "4"));
              ("strokeColor", PVal (JStr "#d9534f")); ("trailColor", PVal (JStr "#f0ad4e"))]
             [];
           Elem "b" []
             [Val (JNum (Math_round exploitPercentage));
              Text "% of scanned machines exploited"]]];
     Elem "div" [style [("marginBottom", "20px")]]
       [Elem "ScannedServers" [("data", PVal (JArr (scanned gl)))] []];
     Elem "div" [style [("marginBottom", "20px")]]
       [Elem "p" []
          [Text (String.append "The Monkey successfully breached" nbsp);
           Elem "span" [className "badge badge-danger"] [Val (JNum (exploited_cnt gl))];
           Text " ";
           Val (JStr (Pluralize "machine" (exploited_cnt gl)));
           Text ":"];
        Elem "BreachedServers" [] []];
     Elem "div" [style [("marginBottom", "20px")]]
       [Elem "StolenCredentialsTable"
          [("stolenCredentials", PVal (stolenCredentials st))] []]]).

Definition generateReportFooter : node :=
  Elem "div" [("id", PVal (JStr "footer")); className "text-center";
              style [("marginTop", "20px")]]
    [Text "For questions, suggestions, or any other feedback, contact ";
     Elem "a" [("href", PVal (JStr "mailto://labs@guardicore.com")); className "no-print"]
       [Text "labs@guardicore.com"];
     Elem "div" [className "force-print"; style [("display", "none")]]
       [Text "labs@guardicore.com"];
     Text ".";
     Elem "img" [("src", PRef "guardicoreLogoImage"); ("alt", PVal (JStr "GuardiCore"));
                 className "center-block"; style [("height", "50px")]] []].

(** The part of the page [render] wraps around [content]. *)
Definition page (content : node) : node :=
  Frag
    [Elem "div" [style [("marginBottom", "20px")]] [print_button];
     Elem "div" [className "report-page"]
       [Elem "ReportHeader" [("report_type", PRef "ReportTypes.security")] [];
        Elem "hr" [] [];
        content];
     Elem "div" [style [("marginTop", "20px")]] [print_button]].

Definition loader : node := Elem "ReportLoader" [("loading", PVal (JBool true))] [].

(** [this.allTunnels = getAllTunnels(this.state.agents, this.state.machines)] *)
Definition assign_allTunnels (this : Component) : Component :=
  {| state := state this;
     allTunnels := getAllTunnels (agents (state this)) (machines (state this)) |}.

(** [render] assigns [this.allTunnels] and returns the element tree. *)
Definition render (this : Component) : Component * completion node :=
  let this := assign_allTunnels this in
  let content :=
    if stillLoadingDataFromServer this then mret loader
    else
      ov ← generateReportOverviewSection this;
      seg ← generateSegmentationSection this;
      recs ← generateReportRecommendationsSection this;
      gl ← generateReportGlanceSection this;
      mret (Elem "div" [] [ov; seg; recs; gl; generateReportFooter]) in
  (this, content ← content; mret (page content)).

(** [componentWillUnmount]: [clearInterval(this.interval)] on an interval
    that is never armed. *)
Definition componentWillUnmount (this : Component) : Component := this.

(** [componentDidUpdate(prevProps)]: the report prop replaces the report
    slot when its reference changed. *)
Definition componentDidUpdate (changed : bool) (props_report : Report)
    (this : Component) : Component :=
  if changed then
    setState {| set_report := Some props_report; set_stolenCredentials := None;
                set_configuredCredentials := None; set_agents := None;
                set_machines := None |} this
  else this.

(** *** Mounting: the four fetches *)

(** [res.json()] settles with the parsed body or rejects. *)
Record Response : Type := { json : settled jsval }.

(** How the requests of the component settle: [authFetch] per URL, and
    the two inventory requests of ServerUtils. *)
Record Server : Type := {
  authFetch : string -> settled Response;
  getAllAgents : settled (list Agent);
  getAllMachines : settled (list Machine)
}.

(** A promise whose reactions may call [setState]: running it to its
    settlement transforms the component. *)
Definition promise (A : Type) : Type := Component -> Component * settled A.

Definition settles {A} (s : settled A) : promise A := fun this => (this, s).

(** [p.then(onFulfilled)], no rejection handler: a rejection skips
    [onFulfilled] and is the outcome of the derived promise. *)
Definition then_ {A B} (p : promise A) (onFulfilled : A -> promise B) : promise B :=
  fun this =>
    match p this with
    | (this', Fulfilled a) => onFulfilled a this'
    | (this', Rejected reason) => (this', Rejected reason)
    end.

(** A callback whose body is [this.setState(patch)]. *)
Definition calls_setState (p : Patch) : promise unit :=
  fun this => (setState p this, Fulfilled tt).

Inductive fetch : Type :=
| StolenCredentials
| ConfiguredCredentials
| AllAgents
| AllMachines.

(** The promise chain each fetch starts. *)
Definition chain (srv : Server) (f : fetch) : promise unit :=
  match f with
  | StolenCredentials =>
      then_ (then_ (settles (authFetch srv "/api/propagation-credentials/stolen-credentials"))
                   (fun res => settles (json res)))
            (fun creds =>
               calls_setState
                 {| set_report := None; set_stolenCredentials := Some creds;
                    set_configuredCredentials := None; set_agents := None;
                    set_machines := None |})
  | ConfiguredCredentials =>
      then_ (then_ (settles (authFetch srv "/api/propagation-credentials/configured-credentials"))
                   (fun res => settles (json res)))
            (fun creds =>
               calls_setState
                 {| set_report := None; set_stolenCredentials := None;
                    set_configuredCredentials := Some creds; set_agents := None;
                    set_machines := None |})
  | AllAgents =>
      then_ (settles (getAllAgents srv))
            (fun agents =>
               calls_setState
                 {| set_report := None; set_stolenCredentials := None;
                    set_configuredCredentials := None; set_agents := Some agents;
                    set_machines := None |})
  | AllMachines =>
      then_ (settles (getAllMachines srv))
            (fun machines =>
               calls_setState
                 {| set_report := None; set_stolenCredentials := None;
                    set_configuredCredentials := None; set_agents := None;
                    set_machines := Some machines |})
  end.

(** The fetches started, in program order. *)
Definition getCredentialsFromServer : list fetch :=
  [StolenCredentials; ConfiguredCredentials].

Definition componentDidMount : list fetch :=
  getCredentialsFromServer ++ [AllAgents; AllMachines].

(** The event loop runs the chains in the order the fetches complete. *)
Definition complete (srv : Server) (f : fetch) (this : Component) : Component :=
  fst (chain srv f this).

Definition outcome (srv : Server) (f : fetch) (this : Component) : settled unit :=
  snd (chain srv f this).

Definition run (srv : Server) (order : list fetch) (this : Component) : Component :=
  fold_left (fun this f => complete srv f this) order this.

(** The promise the state-writing callback of a fetch is attached to
    rejects with [reason]. *)
Definition fails (srv : Server) (f : fetch) (reason : jsval) : Prop :=
  match f with
  | StolenCredentials =>
      match authFetch srv "/api/propagation-credentials/stolen-credentials" with
      | Fulfilled res => json res = Rejected reason
      | Rejected r => r = reason
      end
  | ConfiguredCredentials =>
      match authFetch srv "/api/propagation-credentials/configured-credentials" with
      | Fulfilled res => json res = Rejected reason
      | Rejected r => r = reason
      end
  | AllAgents => getAllAgents srv = Rejected reason
  | AllMachines => getAllMachines srv = Rejected reason
  end.

Definition fetch_eqb (a b : fetch) : bool :=
  match a, b with
  | StolenCredentials, StolenCredentials
  | ConfiguredCredentials, ConfiguredCredentials
  | AllAgents, AllAgents
  | AllMachines, AllMachines => true
  | _, _ => false
  end.

(** The state slots. *)
Inductive slot : Type :=
| slot_report
| slot_stolenCredentials
| slot_configuredCredentials
| slot_agents
| slot_machines.

Definition slot_of (f : fetch) : slot :=
  match f with
  | StolenCredentials => slot_stolenCredentials
  | ConfiguredCredentials => slot_configuredCredentials
  | AllAgents => slot_agents
  | AllMachines => slot_machines
  end.

(** Two states hold the same value in a slot. *)
Definition same_slot (s : slot) (a b : State) : Prop :=
  match s with
  | slot_report => report a = report b
  | slot_stolenCredentials => stolenCredentials a = stolenCredentials b
  | slot_configuredCredentials => configuredCredentials a = configuredCredentials b
  | slot_agents => agents a = agents b
  | slot_machines => machines a = machines b
  end.

End Component.

(** ** Reading rendered trees *)

(** The elements of type [ty], in document order. *)
Fixpoint elements (ty : string) (n : node) : list node :=
  match n with
  | Elem t _ cs =>
      (if String.eqb t ty then [n] else []) ++ flat_map (elements ty) cs
  | Frag cs | Arr cs => flat_map (elements ty) cs
  | Text _ | Val _ => []
  end.

Definition children (n : node) : list node :=
  match n with
  | Elem _ _ cs | Frag cs | Arr cs => cs
  | Text _ | Val _ => []
  end.

Fixpoint assoc (name : string) (ps : list (string * propval)) : option propval :=
  match ps with
  | [] => None
  | (k, v) :: ps' => if String.eqb k name then Some v else assoc name ps'
  end.

(** The value an element receives for the prop [name]. *)
Definition prop (name : string) (n : node) : option propval :=
  match n with
  | Elem _ ps _ => assoc name ps
  | _ => None
  end.

(** The two slots of a rendered issue,
    [<li><div>{remediation}<CollapsibleWellComponent>{description}
    </CollapsibleWellComponent></div></li>]. *)
Definition issue_slots (n : node) : option (node * node) :=
  match n with
  | Elem _ _ [Elem _ _ [remediation; Elem _ _ [description]]] =>
      Some (remediation, description)
  | _ => None
  end.

(** The default remediation of [generateIssue]. *)
Definition no_remediation : node :=
  Elem "ReactMarkdown" [] [Text " 'No remediation available'"].

(** Deduplication as the specification words it: every hostname once, at
    the place of its first occurrence. *)
Fixpoint dedup_first (l : list string) : list string :=
  match l with
  | [] => []
  | x :: l' => x :: List.filter (fun y => negb (String.eqb y x)) (dedup_first l')
  end.

(** The special case of [generateIssue], as the specification words it:
    the type is the Zerologon exploiter and the password restoration is
    explicitly [false]. *)
Definition zerologon_failed_restore (issue : Issue) : Prop :=
  issue !! "type" = Some (JStr "ZerologonExploiter")
  /\ issue !! "password_restored" = Some (JBool false).

(** The normal remediation block, as the specification words it: the
    markdown of [remediation_suggestion] when present, otherwise the
    placeholder. *)
Definition normal_remediation (issue : Issue) : node :=
  match issue !! "remediation_suggestion" with
  | Some v => if defined v then markdown v else no_remediation
  | None => no_remediation
  end.

(** The description block: the markdown of [description] when present,
    otherwise empty. *)
Definition issue_description (issue : Issue) : node :=
  match issue !! "description" with
  | Some v => if defined v then markdown v else Val (JStr "")
  | None => Val (JStr "")
  end.

(** The same imports with another warning passage. *)
Definition with_warning (I : Imports) (w : node) : Imports :=
  {| Agent := @Agent I;
     Machine := @Machine I;
     Tunnel := @Tunnel I;
     CrossSegmentIssue := @CrossSegmentIssue I;
     getManuallyStartedAgents := @getManuallyStartedAgents I;
     getMachineByAgent := @getMachineByAgent I;
     getMachineByID := @getMachineByID I;
     getMachineHostname := @getMachineHostname I;
     getMachineIPs := @getMachineIPs I;
     getAllTunnels := @getAllTunnels I;
     tunnelIssueReportByMachine := @tunnelIssueReportByMachine I;
     crossSegmentIssueReport := @crossSegmentIssueReport I;
     zerologonOverviewWithFailedPassResetWarning := w;
     Pluralize := @Pluralize I;
     Math_round := @Math_round I;
     parseInt := @parseInt I;
     JSON_stringify := @JSON_stringify I |}.

(** ** A concrete inventory *)

Module Fixture.

(** Modelled from the spec: the inventory records of ../utils/ServerUtils,
    which is not part of this file. A Machine carries a hostname and a
    list of IP addresses; an Agent references a Machine and carries a
    flag telling a manual from an automated start. *)
Record machine : Type := {
  id : Z;
  hostname : string;
  ips : list string
}.

Record agent : Type := {
  machine_id : Z;
  manually_started : bool
}.

(** Modelled from the spec: the lookups of ../utils/ServerUtils over these
    records; an Agent is resolved to the Machine it references. *)
Definition find_machine (mid : Z) (ms : list machine) : option machine :=
  List.find (fun m => Z.eqb (id m) mid) ms.

Definition hostname_of (m : option machine) : string :=
  match m with
  | Some m => hostname m
  | None => "Unknown"
  end.

Definition ips_of (m : option machine) : list string :=
  match m with
  | Some m => ips m
  | None => []
  end.

(** Stand-ins for the imports the statements do not depend on: no
    tunnels, numbers left as they are, keys of an issue as its key. *)
#[export] Instance imports : Imports := {|
  Agent := agent;
  Machine := machine;
  Tunnel := unit;
  CrossSegmentIssue := string;
  getManuallyStartedAgents := List.filter manually_started;
  getMachineByAgent := fun a ms => find_machine (machine_id a) ms;
  getMachineByID := fun n ms =>
    List.find (fun m => SFeqb (num_of_Z (id m)) n) ms;
  getMachineHostname := hostname_of;
  getMachineIPs := ips_of;
  getAllTunnels := fun _ _ => [];
  tunnelIssueReportByMachine := fun _ _ => None;
  crossSegmentIssueReport := fun x => Elem "li" [key x] [Val (JStr x)];
  zerologonOverviewWithFailedPassResetWarning :=
    Elem "span" [className "zerologon-pass-restore-failed"] [];
  Pluralize := fun word _ => word;
  Math_round := fun x => x;
  parseInt := fun _ => S754_nan;
  JSON_stringify := fun issue => String.concat "," (map fst (map_to_list issue))
|}.

Definition some_overview : Overview :=
  {| monkey_start_time := JStr "2023-01-01 10:00:00";
     monkey_duration := JStr "5 minutes";
     config_exploits := ["SSHExploiter"; "ZerologonExploiter"];
     config_ips := ["10.0.0.0/24"];
     config_scan := JBool true |}.

Definition no_exploits_overview : Overview :=
  {| monkey_start_time := JStr "2023-01-01 10:00:00";
     monkey_duration := JUndefined;
     config_exploits := [];
     config_ips := [];
     config_scan := JBool false |}.

Definition some_glance : Glance :=
  {| exploited_cnt := num_of_Z 1;
     scanned := [JStr "a"; JStr "b"; JStr "c"; JStr "d"] |}.

Definition nothing_scanned : Glance :=
  {| exploited_cnt := num_of_Z 0; scanned := [] |}.

Definition zerologon_issue : Issue :=
  {[ "type" := JStr "ZerologonExploiter";
     "password_restored" := JBool false;
     "remediation_suggestion" := JStr "Restore the password." ]}.

Definition restored_issue : Issue :=
  {[ "type" := JStr "ZerologonExploiter";
     "password_restored" := JBool true;
     "remediation_suggestion" := JStr "Install the patch." ]}.

Definition bare_issue : Issue :=
  {[ "type" := JStr "SSHExploiter";
     "description" := JStr "Weak password." ]}.

Definition some_report : Report :=
  {| overview := Some some_overview;
     glance := Some some_glance;
     recommendations := Some {| issues := [("1", [zerologon_issue; bare_issue])] |};
     cross_segment_issues := Some ["10.0.0.0/24 -> 10.0.1.0/24"];
     other_keys := ["meta_info"] |}.

Definition quiet_report : Report :=
  {| overview := Some no_exploits_overview;
     glance := Some nothing_scanned;
     recommendations := Some {| issues := [] |};
     cross_segment_issues := Some [];
     other_keys := [] |}.

(** Two machines with one hostname. *)
Definition two_machines : list machine :=
  [ {| id := 1; hostname := "web"; ips := ["10.0.0.1"] |};
    {| id := 2; hostname := "web"; ips := ["10.0.0.2"] |} ].

Definition agent_on (mid : Z) : agent :=
  {| machine_id := mid; manually_started := true |}.

(** Two manually started agents on the first machine, next to an agent
    the Monkey started itself. *)
Definition agents_on_one_machine : list agent :=
  [ agent_on 1; {| machine_id := 2; manually_started := false |}; agent_on 1 ].

(** One manually started agent on each machine. *)
Definition agents_on_two_machines : list agent :=
  [ agent_on 1; agent_on 2 ].

Definition mounted_component (r : Report) (ags : list agent) : Component :=
  {| state := {| report := r;
                 stolenCredentials := JArr [];
                 configuredCredentials := JArr [];
                 agents := ags;
                 machines := two_machines |};
     allTunnels := [] |}.

(** A server on which the stolen-credentials request is refused and the
    others succeed. *)
Definition server : Server :=
  {| authFetch := fun url =>
       if String.eqb url "/api/propagation-credentials/stolen-credentials"
       then Rejected (JStr "NetworkError")
       else Fulfilled {| json := Fulfilled (JArr [JStr "user:password"]) |};
     getAllAgents := Fulfilled agents_on_two_machines;
     getAllMachines := Fulfilled two_machines |}.

End Fixture.

(** ** The state once the fetches have settled *)

Section Settlement.
Context `{Imports}.

(** What a credentials request hands to its state-writing callback: the
    parsed body of the response. *)
Definition body_of (response : settled Response) : settled jsval :=
  match response with
  | Fulfilled res => json res
  | Rejected reason => Rejected reason
  end.

Definition or_previous {A} (s : settled A) (previous : A) : A :=
  match s with
  | Fulfilled a => a
  | Rejected _ => previous
  end.

(** Every slot holds what its fetch delivered, or its previous value
    when the fetch failed. *)
Definition settled_state (srv : Server) (st : State) : State :=
  {| report := report st;
     stolenCredentials :=
       or_previous
         (body_of (authFetch srv "/api/propagation-credentials/stolen-credentials"))
         (stolenCredentials st);
     configuredCredentials :=
       or_previous
         (body_of (authFetch srv "/api/propagation-credentials/configured-credentials"))
         (configuredCredentials st);
     agents := or_previous (getAllAgents srv) (agents st);
     machines := or_previous (getAllMachines srv) (machines st) |}.

End Settlement.

(** ** Properties *)

Section Properties.
Context `{Imports}.
Implicit Types (this : Component) (issue : Issue) (gl : Glance) (ov : Overview).

Lemma stillLoading_iff this :
  stillLoadingDataFromServer this = true <->
  length (Object_keys (report (state this))) = 0.
Proof. unfold stillLoadingDataFromServer. apply Nat.eqb_eq. Qed.

Lemma stillLoading_assign this :
  stillLoadingDataFromServer (assign_allTunnels this) = stillLoadingDataFromServer this.
Proof. reflexivity. Qed.

(** C1 (as amended): for a report with no enumerable top-level key,
    [render] returns the fixed page frame (print button, report header,
    rule, print button) with the loading indicator as its only content:
    no Overview, Segmentation, Recommendations, Glance or Footer section
    is generated. *)
Theorem render_loading this :
  length (Object_keys (report (state this))) = 0 ->
  snd (render this) = Normal (page loader)
  /\ elements "ReportLoader" (page loader) = [loader]
  /\ elements "h2" (page loader) = []
  /\ has_text "For questions, suggestions, or any other feedback, contact "
       (page loader) = false.
Proof.
  intros Hkeys. apply stillLoading_iff in Hkeys.
  rewrite <- stillLoading_assign in Hkeys.
  split; [| repeat split].
  unfold render. cbv zeta. rewrite Hkeys. reflexivity.
Qed.

Lemma div_by_zero_not_finite (x : number) :
  isFinite (num_div x (num_of_nat 0)) = false.
Proof. destruct x as [s | s | | s m e]; reflexivity. Qed.

(** C2: when the report has its glance, the glance section passes
    [(100 * exploited_cnt) / scanned.length] to the progress line as its
    percentage; the division has no guard, and with an empty [scanned]
    list the percentage is not a finite number (Infinity or NaN). *)
Theorem exploit_percentage_unguarded this gl :
  glance (report (state this)) = Some gl ->
  exists sec,
    generateReportGlanceSection this = Normal sec
    /\ map (prop "percent") (elements "Line" sec) =
         [Some (PVal (JNum (num_div (num_mul (num_of_Z 100) (exploited_cnt gl))
                                    (num_of_nat (length (scanned gl))))))]
    /\ (scanned gl = [] ->
        isFinite (num_div (num_mul (num_of_Z 100) (exploited_cnt gl))
                          (num_of_nat (length (scanned gl)))) = false).
Proof.
  intros Hgl. unfold generateReportGlanceSection. rewrite Hgl.
  eexists. split; [reflexivity |]. split; [reflexivity |].
  intros ->. apply div_by_zero_not_finite.
Qed.

End Properties.

(** *** Issues *)

Lemma zerologon_failed_restore_iff (issue : Issue) :
  strict_eq_str (get issue "type") "ZerologonExploiter"
  && strict_eq_false (get issue "password_restored") = true
  <-> zerologon_failed_restore issue.
Proof.
  unfold zerologon_failed_restore, get. rewrite andb_true_iff. split.
  - intros [Hty Hpw].
    destruct (issue !! "type") as [[| | | | s | |] |]; try discriminate Hty.
    destruct (issue !! "password_restored") as [[| | [] | | | |] |];
      try discriminate Hpw.
    simpl in Hty. apply String.eqb_eq in Hty. subst s. split; reflexivity.
  - intros [-> ->]. split; reflexivity.
Qed.

Lemma not_zerologon_failed_restore (issue : Issue) :
  ~ zerologon_failed_restore issue ->
  strict_eq_str (get issue "type") "ZerologonExploiter"
  && strict_eq_false (get issue "password_restored") = false.
Proof.
  intros Hnot. apply not_true_is_false. intros Hb.
  apply Hnot, zerologon_failed_restore_iff, Hb.
Qed.

(** [generateIssue], with its two optional blocks named. *)
Lemma generateIssue_blocks `{Imports} (issue : Issue) :
  generateIssue issue =
  Elem "li" [key (JSON_stringify issue)]
    [Elem "div" []
       [(if strict_eq_str (get issue "type") "ZerologonExploiter"
            && strict_eq_false (get issue "password_restored")
         then Frag [zerologonOverviewWithFailedPassResetWarning;
                    Elem "br" [] [];
                    Elem "li" [] [normal_remediation issue]]
         else normal_remediation issue);
        Elem "CollapsibleWellComponent" [] [issue_description issue]]].
Proof.
  unfold generateIssue, normal_remediation, issue_description, no_remediation.
  cbv zeta. unfold has, get.
  destruct (issue !! "remediation_suggestion") as [r |];
    destruct (issue !! "description") as [d |];
    try destruct r; try destruct d; reflexivity.
Qed.

(** C3: an issue of type 'ZerologonExploiter' whose [password_restored]
    is explicitly [false] renders the warning passage, a line break and
    then, as a list item, the normal remediation block (the markdown of
    [remediation_suggestion] when present, otherwise the placeholder):
    both are present together, the warning first. For every other
    combination of [type] and [password_restored] the remediation slot
    holds the normal remediation block alone, and the rendered issue does
    not depend on the warning passage. *)
Theorem zerologon_warning_precedes_remediation `{Imports} (issue : Issue) :
  (zerologon_failed_restore issue ->
   generateIssue issue =
   Elem "li" [key (JSON_stringify issue)]
     [Elem "div" []
        [Frag [zerologonOverviewWithFailedPassResetWarning;
               Elem "br" [] [];
               Elem "li" [] [normal_remediation issue]];
         Elem "CollapsibleWellComponent" [] [issue_description issue]]])
  /\ (~ zerologon_failed_restore issue ->
      generateIssue issue =
      Elem "li" [key (JSON_stringify issue)]
        [Elem "div" []
           [normal_remediation issue;
            Elem "CollapsibleWellComponent" [] [issue_description issue]]]
      /\ forall w : node,
           @generateIssue (with_warning _ w) issue = generateIssue issue).
Proof.
  split.
  - intros Hz. apply zerologon_failed_restore_iff in Hz.
    rewrite generateIssue_blocks, Hz. reflexivity.
  - intros Hnot. apply not_zerologon_failed_restore in Hnot.
    split.
    + rewrite generateIssue_blocks, Hnot. reflexivity.
    + intros w. rewrite (@generateIssue_blocks (with_warning _ w)).
      rewrite generateIssue_blocks. simpl. rewrite Hnot. reflexivity.
Qed.

(** C7: outside the Zerologon special case, an issue whose
    [remediation_suggestion] is absent or undefined renders the fixed
    placeholder as its remediation, and one whose suggestion is present
    and defined renders that suggestion's markdown; in the special case
    the same block follows the warning passage. The description is
    decided on its own, for every issue: empty when absent or undefined,
    its markdown otherwise. *)
Theorem default_remediation_placeholder `{Imports} (issue : Issue) :
  exists remediation description,
    issue_slots (generateIssue issue) = Some (remediation, description)
    /\ (~ zerologon_failed_restore issue ->
        ((issue !! "remediation_suggestion" = None
          \/ issue !! "remediation_suggestion" = Some JUndefined) ->
         remediation = Elem "ReactMarkdown" [] [Text " 'No remediation available'"])
        /\ (forall v, issue !! "remediation_suggestion" = Some v -> v <> JUndefined ->
            remediation = markdown v))
    /\ (zerologon_failed_restore issue ->
        exists block,
          remediation = Frag [zerologonOverviewWithFailedPassResetWarning;
                              Elem "br" [] [];
                              Elem "li" [] [block]]
          /\ ((issue !! "remediation_suggestion" = None
               \/ issue !! "remediation_suggestion" = Some JUndefined) ->
              block = Elem "ReactMarkdown" [] [Text " 'No remediation available'"])
          /\ (forall v, issue !! "remediation_suggestion" = Some v -> v <> JUndefined ->
              block = markdown v))
    /\ ((issue !! "description" = None \/ issue !! "description" = Some JUndefined) ->
        description = Val (JStr ""))
    /\ (forall v, issue !! "description" = Some v -> v <> JUndefined ->
        description = markdown v).
Proof.
  assert ((issue !! "remediation_suggestion" = None
           \/ issue !! "remediation_suggestion" = Some JUndefined) ->
          normal_remediation issue = no_remediation) as Hplaceholder.
  { unfold normal_remediation. intros [-> | ->]; reflexivity. }
  assert (forall v, issue !! "remediation_suggestion" = Some v -> v <> JUndefined ->
          normal_remediation issue = markdown v) as Hmarkdown.
  { unfold normal_remediation. intros v -> Hv.
    destruct v; try reflexivity. contradiction. }
  rewrite generateIssue_blocks. simpl. do 2 eexists. split; [reflexivity |].
  split; [| split; [| split]].
  - intros Hnot. rewrite (not_zerologon_failed_restore _ Hnot).
    split; [exact Hplaceholder | exact Hmarkdown].
  - intros Hz. apply zerologon_failed_restore_iff in Hz. rewrite Hz.
    eexists. split; [reflexivity |]. split; [exact Hplaceholder | exact Hmarkdown].
  - unfold issue_description. intros [-> | ->]; reflexivity.
  - unfold issue_description. intros v -> Hv.
    destruct v; try reflexivity. contradiction.
Qed.

(** *** The uniqueness set *)

Section UniquenessSet.
Implicit Types (s l : list string) (x y : string).

Lemma Set_has_In s x : Set_has s x = true <-> In x s.
Proof.
  unfold Set_has. rewrite existsb_exists. split.
  - intros [y [Hin Heq]]. apply String.eqb_eq in Heq. subst y. exact Hin.
  - intros Hin. exists x. split; [exact Hin | apply String.eqb_refl].
Qed.

Lemma Set_has_app s x y :
  Set_has (s ++ [x])%list y = Set_has s y || String.eqb y x.
Proof. unfold Set_has. rewrite existsb_app. simpl. rewrite orb_false_r. reflexivity. Qed.

Lemma filter_filter_swap (p q : string -> bool) l :
  List.filter p (List.filter q l) = List.filter (fun y => q y && p y) l.
Proof.
  induction l as [| a l IH]; simpl; [reflexivity |].
  destruct (q a); simpl; [destruct (p a) |]; rewrite IH; reflexivity.
Qed.

(** Adding the elements of [l] to a set [s] appends to [s], in order, the
    first occurrences in [l] of the strings [s] does not hold. *)
Lemma fold_Set_add l : forall s,
  fold_left Set_add l s =
  (s ++ List.filter (fun y => negb (Set_has s y)) (dedup_first l))%list.
Proof.
  induction l as [| x l IH]; intros s; simpl.
  - symmetry. apply app_nil_r.
  - rewrite IH. unfold Set_add. destruct (Set_has s x) eqn:Hx; simpl.
    + f_equal. rewrite filter_filter_swap. apply filter_ext. intros y.
      destruct (String.eqb y x) eqn:Hyx; simpl; [| reflexivity].
      apply String.eqb_eq in Hyx. subst y. rewrite Hx. reflexivity.
    + rewrite <- app_assoc. simpl. f_equal. f_equal.
      rewrite filter_filter_swap. apply filter_ext. intros y.
      rewrite Set_has_app, negb_orb. apply andb_comm.
Qed.

Lemma new_Set_dedup_first l : spread (new_Set l) = dedup_first l.
Proof.
  unfold spread, new_Set. rewrite fold_Set_add. simpl.
  induction (dedup_first l) as [| a d IH]; simpl; [| rewrite IH]; reflexivity.
Qed.

Lemma dedup_first_In l x : In x (dedup_first l) <-> In x l.
Proof.
  induction l as [| a l IH]; simpl; [tauto |].
  rewrite filter_In, IH, negb_true_iff, String.eqb_neq.
  destruct (String.eqb_spec x a) as [-> | Hne]; [tauto |].
  split; [intros [-> | [Hin _]] | intros [-> | Hin]]; auto.
Qed.

Lemma dedup_first_NoDup l : List.NoDup (dedup_first l).
Proof.
  induction l as [| a l IH]; simpl; constructor.
  - rewrite filter_In, negb_true_iff, String.eqb_neq. intros [_ Hne]. now apply Hne.
  - apply List.NoDup_filter, IH.
Qed.

Lemma filter_none (p : string -> bool) l :
  (forall y, In y l -> p y = false) -> List.filter p l = [].
Proof.
  induction l as [| a l IH]; simpl; intros Hp; [reflexivity |].
  rewrite (Hp a) by (left; reflexivity). apply IH. intros y Hy. apply Hp. now right.
Qed.

Lemma NoDup_one_entry l x :
  List.NoDup l -> In x l -> length (List.filter (String.eqb x) l) = 1.
Proof.
  induction 1 as [| a l Hnotin Hnd IH]; simpl; [tauto |].
  intros [-> | Hin].
  - rewrite String.eqb_refl. simpl. f_equal.
    rewrite filter_none; [reflexivity |].
    intros y Hy. apply String.eqb_neq. intros ->. contradiction.
  - destruct (String.eqb_spec x a) as [-> | _]; [contradiction | auto].
Qed.

End UniquenessSet.

(** *** The overview section *)

Section OverviewSection.
Context `{Imports}.
Implicit Types (this : Component) (gl : Glance) (ov : Overview).

(** With its overview and glance present, the overview section is
    generated, and its first list is the list of the manual-start
    hostnames taken out of the uniqueness set. *)
Lemma overview_hostname_list this gl ov :
  glance (report (state this)) = Some gl ->
  overview (report (state this)) = Some ov ->
  exists out,
    generateReportOverviewSection this = Normal out
    /\ head (elements "ul" out) =
       Some (Elem "ul" [] [Arr (map li_of (spread (new_Set (manualMonkeyHostnames this))))]).
Proof.
  intros Hgl Hov.
  unfold generateReportOverviewSection, getMonkeyDuration. cbv zeta.
  rewrite Hgl, Hov. simpl.
  destruct (truthy (monkey_duration ov)); simpl;
    (eexists; split; [reflexivity |]);
    destruct (num_gt _ _); reflexivity.
Qed.

(** C5: the list of manual-start hostnames rendered in the overview
    holds the hostnames of the manually started agents without
    duplicates, each at the place of its first occurrence; two manually
    started agents on one machine give exactly one entry. *)
Theorem manual_hostnames_deduplicated this gl ov :
  glance (report (state this)) = Some gl ->
  overview (report (state this)) = Some ov ->
  exists out hosts,
    generateReportOverviewSection this = Normal out
    /\ head (elements "ul" out) = Some (Elem "ul" [] [Arr (map li_of hosts)])
    /\ List.NoDup hosts
    /\ (forall h, In h hosts <-> In h (manualMonkeyHostnames this))
    /\ hosts = dedup_first (manualMonkeyHostnames this)
    /\ (forall a1 a2,
          getManuallyStartedAgents (agents (state this)) = [a1; a2] ->
          getMachineByAgent a1 (machines (state this))
          = getMachineByAgent a2 (machines (state this)) ->
          hosts = [getMachineHostname (getMachineByAgent a1 (machines (state this)))]).
Proof.
  intros Hgl Hov.
  destruct (overview_hostname_list this gl ov Hgl Hov) as [out [Hout Hul]].
  exists out, (dedup_first (manualMonkeyHostnames this)).
  rewrite new_Set_dedup_first in Hul.
  split; [exact Hout |]. split; [exact Hul |].
  split; [apply dedup_first_NoDup |].
  split; [intros h; apply dedup_first_In |].
  split; [reflexivity |].
  intros a1 a2 Hmanual Hsame. unfold manualMonkeyHostnames.
  rewrite Hmanual. simpl. rewrite Hsame, String.eqb_refl. reflexivity.
Qed.

(** C10: the list is deduplicated by hostname alone. Whenever two
    manually started agents resolve to machines of equal hostname, be the
    machines the same or not, the rendered list holds exactly one entry
    for that hostname. *)
Theorem manual_hostnames_collapse_by_hostname this gl ov (a1 a2 : Agent) :
  glance (report (state this)) = Some gl ->
  overview (report (state this)) = Some ov ->
  In a1 (getManuallyStartedAgents (agents (state this))) ->
  In a2 (getManuallyStartedAgents (agents (state this))) ->
  getMachineHostname (getMachineByAgent a1 (machines (state this)))
  = getMachineHostname (getMachineByAgent a2 (machines (state this))) ->
  exists out hosts,
    generateReportOverviewSection this = Normal out
    /\ head (elements "ul" out) = Some (Elem "ul" [] [Arr (map li_of hosts)])
    /\ length (List.filter
                 (String.eqb (getMachineHostname
                                (getMachineByAgent a1 (machines (state this)))))
                 hosts) = 1
    /\ length (List.filter
                 (String.eqb (getMachineHostname
                                (getMachineByAgent a2 (machines (state this)))))
                 hosts) = 1.
Proof.
  intros Hgl Hov Hin1 Hin2 Hsame.
  destruct (overview_hostname_list this gl ov Hgl Hov) as [out [Hout Hul]].
  exists out, (dedup_first (manualMonkeyHostnames this)).
  rewrite new_Set_dedup_first in Hul.
  split; [exact Hout |]. split; [exact Hul |].
  rewrite <- Hsame.
  assert (length (List.filter
                    (String.eqb (getMachineHostname
                                   (getMachineByAgent a1 (machines (state this)))))
                    (dedup_first (manualMonkeyHostnames this))) = 1) as Hone.
  { apply NoDup_one_entry; [apply dedup_first_NoDup |].
    apply dedup_first_In. unfold manualMonkeyHostnames.
    apply (in_map (fun agent =>
                     getMachineHostname (getMachineByAgent agent (machines (state this))))).
    exact Hin1. }
  split; exact Hone.
Qed.

Lemma has_text_items (t : string) (l : list string) :
  existsb (has_text t) (map li_of l) = false.
Proof. induction l as [| x l IH]; simpl; [reflexivity | exact IH]. Qed.

(** C6: with no configured exploit the overview shows the paragraph
    'No exploiters were enabled.' and no list of exploitation methods;
    with configured exploits it shows, in place of that paragraph, the
    list of exploitation methods with one entry per configured exploit. *)
Theorem no_exploiters_text_or_methods_list this gl ov :
  glance (report (state this)) = Some gl ->
  overview (report (state this)) = Some ov ->
  exists out,
    generateReportOverviewSection this = Normal out
    /\ (config_exploits ov = [] ->
        In (Elem "p" [] [Text "No exploiters were enabled."]) (children out)
        /\ has_text "No exploiters were enabled." out = true
        /\ has_text "The Monkey attempted the following exploitation methods:" out
           = false)
    /\ (config_exploits ov <> [] ->
        In (Elem "p" []
              [Text "The Monkey attempted the following exploitation methods:";
               Elem "ul" [] [Arr (map li_of (config_exploits ov))]])
           (children out)
        /\ length (map li_of (config_exploits ov)) = length (config_exploits ov)
        /\ has_text "The Monkey attempted the following exploitation methods:" out
           = true
        /\ has_text "No exploiters were enabled." out = false).
Proof.
  intros Hgl Hov.
  unfold generateReportOverviewSection, getMonkeyDuration. cbv zeta.
  rewrite Hgl, Hov. simpl.
  destruct (truthy (monkey_duration ov)); simpl;
    (eexists; split; [reflexivity |]);
    (split; [intros Hnone; rewrite Hnone | intros Hsome;
             destruct (config_exploits ov) as [| x xs]; [contradiction |]]);
    destruct (num_gt _ _); destruct (config_ips ov) as [| i ips];
    destruct (truthy (config_scan ov)); simpl;
    rewrite ?has_text_items, ?length_map; simpl; tauto.
Qed.

End OverviewSection.

(** *** The page *)

Section Page.
Context `{Imports}.
Implicit Types (this : Component) (gl : Glance) (ov : Overview)
  (recs : Recommendations) (csi : list CrossSegmentIssue).

Lemma overview_generated this gl ov :
  glance (report (state this)) = Some gl ->
  overview (report (state this)) = Some ov ->
  exists cs,
    generateReportOverviewSection this
    = Normal (Elem "div" [("id", PVal (JStr "overview"))] cs).
Proof.
  intros Hgl Hov.
  unfold generateReportOverviewSection, getMonkeyDuration. cbv zeta.
  rewrite Hgl, Hov. simpl.
  destruct (truthy (monkey_duration ov)); eexists; reflexivity.
Qed.

Lemma recommendations_generated this recs :
  recommendations (report (state this)) = Some recs ->
  exists cs,
    generateReportRecommendationsSection this
    = Normal (Elem "div" [("id", PVal (JStr "recommendations"))] cs).
Proof.
  intros Hrecs. unfold generateReportRecommendationsSection. rewrite Hrecs.
  eexists. reflexivity.
Qed.

Lemma glance_generated this gl :
  glance (report (state this)) = Some gl ->
  exists cs,
    generateReportGlanceSection this
    = Normal (Elem "div" [("id", PVal (JStr "glance"))] cs).
Proof.
  intros Hgl. unfold generateReportGlanceSection. rewrite Hgl.
  eexists. reflexivity.
Qed.

Lemma loaded_not_loading this ov :
  overview (report (state this)) = Some ov ->
  stillLoadingDataFromServer (assign_allTunnels this) = false.
Proof.
  intros Hov. unfold stillLoadingDataFromServer, Object_keys. simpl.
  rewrite Hov. reflexivity.
Qed.

(** C4: for a loaded report, [render] composes Overview, Segmentation,
    Recommendations, Glance and Footer in this order. With no
    cross-segment issue the Segmentation slot is the empty string, for
    which nothing is mounted: the page holds the other four sections
    only. Otherwise the slot is the 'Segmentation Issues' section, whose
    list has one entry per cross-segment issue. *)
Theorem segmentation_only_with_issues this ov gl recs csi :
  overview (report (state this)) = Some ov ->
  glance (report (state this)) = Some gl ->
  recommendations (report (state this)) = Some recs ->
  cross_segment_issues (report (state this)) = Some csi ->
  exists o seg r g,
    generateReportOverviewSection (assign_allTunnels this) = Normal o
    /\ generateSegmentationSection (assign_allTunnels this) = Normal seg
    /\ generateReportRecommendationsSection (assign_allTunnels this) = Normal r
    /\ generateReportGlanceSection (assign_allTunnels this) = Normal g
    /\ snd (render this)
       = Normal (page (Elem "div" [] [o; seg; r; g; generateReportFooter]))
    /\ (length csi = 0 ->
        seg = Val (JStr "")
        /\ mounted_children [o; seg; r; g; generateReportFooter]
           = [o; r; g; generateReportFooter])
    /\ (length csi <> 0 ->
        seg = Elem "div" []
                [Elem "h2" [] [Text "Segmentation Issues"];
                 Elem "div" []
                   [Text "The Monkey uncovered the following set of segmentation issues:";
                    Elem "ul" [] [Arr (map crossSegmentIssueReport csi)]]]
        /\ length (map crossSegmentIssueReport csi) = length csi
        /\ mounted_children [o; seg; r; g; generateReportFooter]
           = [o; seg; r; g; generateReportFooter]).
Proof.
  intros Hov Hgl Hrecs Hcsi.
  destruct (overview_generated (assign_allTunnels this) gl ov Hgl Hov) as [ocs Ho].
  destruct (recommendations_generated (assign_allTunnels this) recs Hrecs) as [rcs Hr].
  destruct (glance_generated (assign_allTunnels this) gl Hgl) as [gcs Hg].
  unfold render. cbv zeta. rewrite (loaded_not_loading this ov Hov).
  rewrite Ho, Hr, Hg.
  unfold generateSegmentationSection. simpl. rewrite Hcsi. simpl.
  destruct csi as [| x xs]; simpl; do 4 eexists;
    repeat (split; [reflexivity |]); split; intros Hlen;
    try (exfalso; simpl in Hlen; lia);
    rewrite ?length_map; repeat split; reflexivity.
Qed.

End Page.

(** *** Mounting *)

Section Mounting.
Context `{Imports}.
Implicit Types (this : Component) (srv : Server) (f g : fetch) (s : slot).

Ltac settle_chain srv :=
  unfold complete, outcome, chain, then_, settles, calls_setState; simpl;
  repeat match goal with
         | |- context [authFetch srv ?url] =>
             let res := fresh "res" in
             destruct (authFetch srv url) as [res | ?]; simpl;
             [destruct (json res); simpl |]
         | |- context [getAllAgents srv] => destruct (getAllAgents srv); simpl
         | |- context [getAllMachines srv] => destruct (getAllMachines srv); simpl
         end.

Lemma complete_frame srv f this s :
  s <> slot_of f -> same_slot s (state (complete srv f this)) (state this).
Proof.
  intros Hs. destruct f; settle_chain srv; destruct s; simpl;
    try reflexivity; contradiction.
Qed.

Lemma complete_commute srv f g this :
  complete srv f (complete srv g this) = complete srv g (complete srv f this).
Proof. destruct f, g; settle_chain srv; reflexivity. Qed.

Lemma run_Permutation srv (order order' : list fetch) :
  Permutation order order' ->
  forall this, run srv order this = run srv order' this.
Proof.
  induction 1 as [| f l l' _ IH | f g l | l l' l'' _ IH1 _ IH2]; intros this; simpl.
  - reflexivity.
  - apply IH.
  - unfold run. simpl. rewrite complete_commute. reflexivity.
  - rewrite IH1. apply IH2.
Qed.

Lemma same_slot_trans s (a b c : State) :
  same_slot s a b -> same_slot s b c -> same_slot s a c.
Proof. destruct s; simpl; congruence. Qed.

(** C8: the completion of each of the four fetches started on mount
    writes its own state slot only: the report slot and the slots of
    the other three fetches keep their values, whatever the state at
    that time. The state after the four completions is the same for
    every order of completion, each slot holding what its own fetch
    delivered. *)
Theorem fetches_write_disjoint_slots srv this :
  (forall f s, In f componentDidMount -> s <> slot_of f ->
     same_slot s (state (complete srv f this)) (state this))
  /\ (forall f, In f componentDidMount ->
        same_slot slot_report (state (complete srv f this)) (state this))
  /\ (forall res creds,
        authFetch srv "/api/propagation-credentials/stolen-credentials" = Fulfilled res ->
        json res = Fulfilled creds ->
        stolenCredentials (state (complete srv StolenCredentials this)) = creds)
  /\ (forall res creds,
        authFetch srv "/api/propagation-credentials/configured-credentials"
        = Fulfilled res ->
        json res = Fulfilled creds ->
        configuredCredentials (state (complete srv ConfiguredCredentials this)) = creds)
  /\ (forall fetched,
        getAllAgents srv = Fulfilled fetched ->
        agents (state (complete srv AllAgents this)) = fetched)
  /\ (forall fetched,
        getAllMachines srv = Fulfilled fetched ->
        machines (state (complete srv AllMachines this)) = fetched)
  /\ (forall order, Permutation componentDidMount order ->
        run srv order this = run srv componentDidMount this).
Proof.
  split; [| split]; [| | repeat split].
  - intros f s _ Hs. apply complete_frame, Hs.
  - intros f _. apply complete_frame. destruct f; discriminate.
  - intros res creds Hres Hjson.
    unfold complete, chain, then_, settles, calls_setState.
    rewrite Hres, Hjson. reflexivity.
  - intros res creds Hres Hjson.
    unfold complete, chain, then_, settles, calls_setState.
    rewrite Hres, Hjson. reflexivity.
  - intros fetched Hfetched.
    unfold complete, chain, then_, settles, calls_setState.
    rewrite Hfetched. reflexivity.
  - intros fetched Hfetched.
    unfold complete, chain, then_, settles, calls_setState.
    rewrite Hfetched. reflexivity.
  - intros order Hperm. symmetry. apply run_Permutation, Hperm.
Qed.

Lemma failed_fetch_skipped srv f reason this :
  fails srv f reason ->
  outcome srv f this = Rejected reason /\ complete srv f this = this.
Proof.
  unfold fails, complete, outcome, chain, then_, settles, calls_setState.
  destruct f; simpl.
  - destruct (authFetch srv _) as [res | r]; simpl; intros Hf;
      [rewrite Hf | subst r]; split; reflexivity.
  - destruct (authFetch srv _) as [res | r]; simpl; intros Hf;
      [rewrite Hf | subst r]; split; reflexivity.
  - intros ->. split; reflexivity.
  - intros ->. split; reflexivity.
Qed.

Lemma fetch_eqb_eq f g : fetch_eqb f g = true <-> f = g.
Proof. destruct f, g; simpl; split; intros Heq; congruence. Qed.

Lemma failed_fetch_slot srv f reason :
  fails srv f reason ->
  forall order this,
    same_slot (slot_of f) (state (run srv order this)) (state this).
Proof.
  intros Hf. induction order as [| g order IH]; intros this; simpl.
  - destruct f; reflexivity.
  - eapply same_slot_trans; [apply IH |].
    destruct (fetch_eqb g f) eqn:Hgf.
    + apply fetch_eqb_eq in Hgf. subst g.
      rewrite (proj2 (failed_fetch_skipped srv f reason this Hf)).
      destruct f; reflexivity.
    + apply complete_frame. intros Heq.
      assert (g = f) as Hgf' by (destruct g, f; simpl in Heq; congruence).
      apply fetch_eqb_eq in Hgf'. congruence.
Qed.

Lemma failed_fetch_as_pending srv f reason :
  fails srv f reason ->
  forall order this,
    run srv order this
    = run srv (List.filter (fun g => negb (fetch_eqb g f)) order) this.
Proof.
  intros Hf. induction order as [| g order IH]; intros this; simpl; [reflexivity |].
  destruct (fetch_eqb g f) eqn:Hgf; simpl.
  - apply fetch_eqb_eq in Hgf. subst g.
    rewrite (proj2 (failed_fetch_skipped srv f reason this Hf)). apply IH.
  - apply IH.
Qed.

Lemma elements_items (ty : string) (l : list string) :
  String.eqb "li" ty = false ->
  flat_map (elements ty) (map li_of l) = [].
Proof.
  intros Hty. induction l as [| x l IH]; [reflexivity |].
  cbn [map flat_map]. unfold li_of at 1. cbn [elements flat_map].
  rewrite Hty. exact IH.
Qed.

Lemma glance_table this sec :
  generateReportGlanceSection this = Normal sec ->
  map (prop "stolenCredentials") (elements "StolenCredentialsTable" sec)
  = [Some (PVal (stolenCredentials (state this)))].
Proof.
  unfold generateReportGlanceSection.
  destruct (glance (report (state this))); simpl; [| discriminate].
  intros [= <-]. reflexivity.
Qed.

Lemma overview_tables this out :
  generateReportOverviewSection this = Normal out ->
  map (prop "stolen") (elements "AvailableCredentials" out)
  = [Some (PVal (stolenCredentials (state this)))]
  /\ map (prop "configured") (elements "AvailableCredentials" out)
     = [Some (PVal (configuredCredentials (state this)))].
Proof.
  unfold generateReportOverviewSection, getMonkeyDuration. cbv zeta.
  destruct (glance (report (state this))) as [gl |]; simpl; [| discriminate].
  destruct (overview (report (state this))) as [ov |]; simpl; [| discriminate].
  destruct (truthy (monkey_duration ov)); simpl; intros [= <-];
    destruct (num_gt _ _); destruct (Nat.ltb 0 (length (config_exploits ov)));
    destruct (Nat.ltb 0 (length (config_ips ov)));
    destruct (truthy (config_scan ov));
    cbn [elements flat_map app String.eqb Ascii.eqb Bool.eqb];
    rewrite ?elements_items by reflexivity; split; reflexivity.
Qed.

(** C9: when one of the four fetches fails, its rejection is the
    outcome of its promise chain, which has no rejection handler, and the
    state is left as it was. After any sequence of completions the slot
    of the failed fetch still holds its initial empty value, the page
    rendered is the one rendered while that fetch is pending, and the
    credentials tables receive the empty list: the state has no place
    for an error and none is displayed. *)
Theorem failed_fetch_leaves_slot_empty srv f reason (rep : Report)
    (order : list fetch) :
  fails srv f reason ->
  (forall this,
      outcome srv f this = Rejected reason /\ complete srv f this = this)
  /\ same_slot (slot_of f) (state (run srv order (constructor rep)))
       (state (constructor rep))
  /\ render (run srv order (constructor rep))
     = render (run srv (List.filter (fun g => negb (fetch_eqb g f)) order)
                 (constructor rep))
  /\ (f = StolenCredentials ->
      (forall sec,
          generateReportGlanceSection (run srv order (constructor rep)) = Normal sec ->
          map (prop "stolenCredentials") (elements "StolenCredentialsTable" sec)
          = [Some (PVal (JArr []))])
      /\ (forall out,
          generateReportOverviewSection (run srv order (constructor rep)) = Normal out ->
          map (prop "stolen") (elements "AvailableCredentials" out)
          = [Some (PVal (JArr []))]))
  /\ (f = ConfiguredCredentials ->
      forall out,
        generateReportOverviewSection (run srv order (constructor rep)) = Normal out ->
        map (prop "configured") (elements "AvailableCredentials" out)
        = [Some (PVal (JArr []))])
  /\ (f = AllAgents -> agents (state (run srv order (constructor rep))) = [])
  /\ (f = AllMachines -> machines (state (run srv order (constructor rep))) = []).
Proof.
  intros Hf.
  pose proof (failed_fetch_slot srv f reason Hf order (constructor rep)) as Hslot.
  split; [intros this; apply (failed_fetch_skipped srv f reason this Hf) |].
  split; [exact Hslot |].
  split; [f_equal; apply (failed_fetch_as_pending srv f reason Hf) |].
  split; [| split; [| split]].
  - intros ->. simpl in Hslot. split.
    + intros sec Hsec. rewrite (glance_table _ _ Hsec), Hslot. reflexivity.
    + intros out Hout.
      rewrite (proj1 (overview_tables _ _ Hout)), Hslot. reflexivity.
  - intros ->. simpl in Hslot. intros out Hout.
    rewrite (proj2 (overview_tables _ _ Hout)), Hslot. reflexivity.
  - intros ->. exact Hslot.
  - intros ->. exact Hslot.
Qed.

End Mounting.

(** ** Further properties of the component *)

(** *** Missing fields *)

Section MissingFields.
Context `{Imports}.
Implicit Types (this : Component).

Lemma segmentation_generated this (csi : list CrossSegmentIssue) :
  cross_segment_issues (report (state this)) = Some csi ->
  exists seg, generateSegmentationSection this = Normal seg.
Proof.
  intros Hcsi. unfold generateSegmentationSection. rewrite Hcsi. simpl.
  destruct (Nat.eqb (length csi) 0); eexists; reflexivity.
Qed.


Lemma not_loading_iff this :
  stillLoadingDataFromServer (assign_allTunnels this) = false <->
  length (Object_keys (report (state this))) <> 0.
Proof.
  rewrite stillLoading_assign. unfold stillLoadingDataFromServer.
  apply Nat.eqb_neq.
Qed.


End MissingFields.

(** *** Recommendations *)

Section RecommendationsSection.
Context `{Imports}.
Implicit Types (this : Component) (recs : Recommendations).

Lemma fold_push_map {A} (f : A -> node) (push : list node -> A -> list node) :
  (forall acc x, push acc x = app acc [f x]) ->
  forall (l : list A) acc, fold_left push l acc = app acc (map f l).
Proof.
  intros Hpush. induction l as [| x l IH]; intros acc; simpl.
  - symmetry. apply app_nil_r.
  - rewrite IH, Hpush, <- app_assoc. reflexivity.
Qed.

Lemma mounted_issues (l : list Issue) :
  flat_map mounted (map generateIssue l) = map generateIssue l.
Proof.
  induction l as [| issue l IH]; [reflexivity |].
  cbn [map flat_map]. rewrite IH. reflexivity.
Qed.

(** [generateIssues] builds one list item per machine key, in the order
    of [Object.keys]: a heading with the hostname and the joined IPs of
    the machine, then the rendered issues of that machine in list order,
    followed by the tunnel issue when there is one; so a machine shows
    at most one entry more than it has issues. *)
Theorem generateIssues_entry_per_machine this (issues : list (string * list Issue)) :
  generateIssues this issues =
  Elem "ul" []
    [Arr (map (fun entry =>
                 let machine :=
                   getMachineByID (parseInt (fst entry)) (machines (state this)) in
                 Elem "li" [key (fst entry)]
                   [Elem "h4" []
                      [Elem "b" []
                         [Val (JStr (getMachineHostname machine)); Text " (";
                          Val (JStr (String.concat ", " (getMachineIPs machine)));
                          Text ")"]];
                    Elem "ol" []
                      [Arr (map generateIssue (snd entry));
                       getTunnelIssue this (parseInt (fst entry))]])
              issues)]
  /\ forall machineId (machineIssues : list Issue),
       mounted_children [Arr (map generateIssue machineIssues);
                         getTunnelIssue this (parseInt machineId)]
       = app (map generateIssue machineIssues)
             match tunnelIssueReportByMachine (parseInt machineId) (allTunnels this) with
             | Some tunnelIssue => [Elem "li" [key "tunneling-issue"] [tunnelIssue]]
             | None => []
             end
       /\ length (mounted_children [Arr (map generateIssue machineIssues);
                                    getTunnelIssue this (parseInt machineId)])
          <= length machineIssues + 1.
Proof.
  split.
  - unfold generateIssues. cbv zeta. do 2 f_equal. f_equal.
    rewrite <- (app_nil_l (map _ issues)).
    apply fold_push_map.
    intros acc [machineId machineIssues]. reflexivity.
  - intros machineId machineIssues.
    assert (mounted_children [Arr (map generateIssue machineIssues);
                              getTunnelIssue this (parseInt machineId)]
            = app (map generateIssue machineIssues)
                  match tunnelIssueReportByMachine (parseInt machineId)
                          (allTunnels this) with
                  | Some tunnelIssue => [Elem "li" [key "tunneling-issue"] [tunnelIssue]]
                  | None => []
                  end) as Hmounted.
    { unfold mounted_children, getTunnelIssue. cbn [flat_map mounted].
      rewrite mounted_issues.
      destruct (tunnelIssueReportByMachine _ _); reflexivity. }
    split; [exact Hmounted |].
    rewrite Hmounted, length_app, length_map.
    destruct (tunnelIssueReportByMachine _ _); simpl; lia.
Qed.

(** The recommendations heading is rendered exactly when the issues
    object has a key. Without keys the section mounts only the empty
    list. *)
Theorem recommendations_heading_iff_issues this recs :
  recommendations (report (state this)) = Some recs ->
  exists out,
    generateReportRecommendationsSection this = Normal out
    /\ (issues recs = [] ->
        mounted_children (children out) = [Elem "div" [] [Elem "ul" [] [Arr []]]])
    /\ (issues recs <> [] ->
        mounted_children (children out)
        = [Elem "h2" [] [Text "Machine-related Recommendations"];
           Elem "div" [] [generateIssues this (issues recs)]]).
Proof.
  intros Hrecs. unfold generateReportRecommendationsSection. rewrite Hrecs.
  eexists. split; [reflexivity |]. split.
  - intros ->. reflexivity.
  - intros Hsome. destruct (issues recs) as [| entry rest]; [contradiction |].
    reflexivity.
Qed.

End RecommendationsSection.

(** *** More of the overview *)

Section OverviewDetails.
Context `{Imports}.
Implicit Types (this : Component) (gl : Glance) (ov : Overview).

(** The duration sentence is rendered exactly for a truthy
    [monkey_duration]: for [undefined], [null], the empty string, zero,
    NaN and [false] the method returns an empty fragment, for which
    nothing is mounted. *)
Theorem monkey_duration_shown_iff_truthy this ov :
  overview (report (state this)) = Some ov ->
  exists duration,
    getMonkeyDuration this = Normal duration
    /\ (mounted duration = [] <-> truthy (monkey_duration ov) = false)
    /\ (truthy (monkey_duration ov) = true ->
        mounted duration
        = [Text "After ";
           Elem "span" [className "badge badge-info"] [Val (monkey_duration ov)];
           Text ", all monkeys finished propagation attempts."]).
Proof.
  intros Hov. unfold getMonkeyDuration. rewrite Hov. simpl.
  destruct (truthy (monkey_duration ov)); eexists;
    (split; [reflexivity |]); split;
    try (split; [discriminate | discriminate]);
    try (split; reflexivity); try discriminate; reflexivity.
Qed.

(** The hint on improving detection rates is shown exactly when the
    issues glance is told that no issue was found, that is when
    [exploited_cnt > 0] is false; this includes an [exploited_cnt] that
    is zero or NaN. *)
Theorem detection_hint_iff_nothing_exploited this gl ov :
  glance (report (state this)) = Some gl ->
  overview (report (state this)) = Some ov ->
  exists out,
    generateReportOverviewSection this = Normal out
    /\ map (prop "issuesFound") (elements "SecurityIssuesGlance" out)
       = [Some (PVal (JBool (num_gt (exploited_cnt gl) (num_of_Z 0))))]
    /\ has_text
         "To improve Infection Monkey's detection rates, try adding credentials under "
         out
       = negb (num_gt (exploited_cnt gl) (num_of_Z 0))
    /\ (exploited_cnt gl = S754_nan \/ exploited_cnt gl = num_of_Z 0 ->
        num_gt (exploited_cnt gl) (num_of_Z 0) = false).
Proof.
  intros Hgl Hov.
  unfold generateReportOverviewSection, getMonkeyDuration. cbv zeta.
  rewrite Hgl, Hov. simpl.
  destruct (truthy (monkey_duration ov)); simpl;
    (eexists; split; [reflexivity |]);
    (split; [| split; [| intros [-> | ->]; reflexivity]]);
    destruct (num_gt _ _);
    destruct (Nat.ltb 0 (length (config_exploits ov)));
    destruct (Nat.ltb 0 (length (config_ips ov)));
    destruct (truthy (config_scan ov));
    cbn [elements flat_map app String.eqb Ascii.eqb Bool.eqb map prop assoc
         has_text existsb orb negb];
    rewrite ?elements_items by reflexivity;
    rewrite ?has_text_items; reflexivity.
Qed.

(** The list of scanned IPs is rendered, with one entry per configured
    IP, exactly when [config_ips] is not empty; and the note on the
    local network is rendered exactly when [config_scan] is falsy. *)
Theorem scanned_ips_and_local_network_note this gl ov :
  glance (report (state this)) = Some gl ->
  overview (report (state this)) = Some ov ->
  exists out,
    generateReportOverviewSection this = Normal out
    /\ has_text "The Monkey scans the following IPs:" out
       = negb (Nat.eqb (length (config_ips ov)) 0)
    /\ (config_ips ov <> [] ->
        In (Elem "p" []
              [Text "The Monkey scans the following IPs:";
               Elem "ul" [] [Arr (map li_of (config_ips ov))]])
           (children out))
    /\ has_text "Note: Monkeys were configured to avoid scanning of the local network."
         out
       = negb (truthy (config_scan ov)).
Proof.
  intros Hgl Hov.
  unfold generateReportOverviewSection, getMonkeyDuration. cbv zeta.
  rewrite Hgl, Hov. simpl.
  destruct (truthy (monkey_duration ov)); simpl;
    (eexists; split; [reflexivity |]);
    destruct (num_gt _ _);
    destruct (Nat.ltb 0 (length (config_exploits ov)));
    destruct (config_ips ov) as [| ip ips];
    destruct (truthy (config_scan ov)); simpl;
    rewrite ?has_text_items; simpl;
    (split; [reflexivity |]); (split; [| reflexivity]);
    intros Hips; try contradiction; tauto.
Qed.

Lemma filter_all (p : string -> bool) (l : list string) :
  (forall y, In y l -> p y = true) -> List.filter p l = l.
Proof.
  induction l as [| a l IH]; simpl; intros Hp; [reflexivity |].
  rewrite (Hp a) by (left; reflexivity). f_equal. apply IH.
  intros y Hy. apply Hp. now right.
Qed.

Lemma dedup_first_length (l : list string) :
  length (dedup_first l) <= length l.
Proof.
  induction l as [| a l IH]; simpl; [lia |].
  pose proof (List.filter_length_le (fun y => negb (String.eqb y a)) (dedup_first l)).
  lia.
Qed.

Lemma dedup_first_NoDup_id (l : list string) :
  List.NoDup l -> dedup_first l = l.
Proof.
  induction 1 as [| a l Hnotin Hnd IH]; simpl; [reflexivity |].
  rewrite IH. f_equal. apply filter_all. intros y Hy.
  apply negb_true_iff, String.eqb_neq. intros ->. contradiction.
Qed.


End OverviewDetails.

(** *** More of the issue renderer *)

(** The placeholder stands in the remediation block exactly when
    [remediation_suggestion] is absent or [undefined]: a suggestion that
    is [null] or the empty string is handed to the markdown component
    as it is. The block is the remediation slot itself or, in the
    Zerologon special case, the list item after the warning. Likewise
    the description slot is the empty string exactly when [description]
    is absent or [undefined]. *)
Theorem placeholder_iff_suggestion_missing `{Imports} (issue : Issue) :
  exists remediation description block,
    issue_slots (generateIssue issue) = Some (remediation, description)
    /\ (remediation = block
        \/ remediation = Frag [zerologonOverviewWithFailedPassResetWarning;
                               Elem "br" [] [];
                               Elem "li" [] [block]])
    /\ (block = Elem "ReactMarkdown" [] [Text " 'No remediation available'"] <->
        issue !! "remediation_suggestion" = None
        \/ issue !! "remediation_suggestion" = Some JUndefined)
    /\ (forall v, issue !! "remediation_suggestion" = Some v -> v <> JUndefined ->
        block = markdown v)
    /\ (description = Val (JStr "") <->
        issue !! "description" = None \/ issue !! "description" = Some JUndefined).
Proof.
  rewrite generateIssue_blocks. simpl.
  exists (if strict_eq_str (get issue "type") "ZerologonExploiter"
             && strict_eq_false (get issue "password_restored")
          then Frag [zerologonOverviewWithFailedPassResetWarning;
                     Elem "br" [] [];
                     Elem "li" [] [normal_remediation issue]]
          else normal_remediation issue),
         (issue_description issue), (normal_remediation issue).
  split; [reflexivity |].
  split; [destruct (_ && _); [right | left]; reflexivity |].
  unfold normal_remediation, issue_description, no_remediation.
  split; [| split].
  - destruct (issue !! "remediation_suggestion") as [v |]; [| tauto].
    destruct v; simpl;
      (split; [intros Hb; try discriminate Hb; auto
              | intros [Hn | Hn]; try discriminate Hn; reflexivity]).
  - intros v -> Hv. destruct v; try reflexivity. contradiction.
  - destruct (issue !! "description") as [v |]; [| tauto].
    destruct v; simpl;
      (split; [intros Hb; try discriminate Hb; auto
              | intros [Hn | Hn]; try discriminate Hn; reflexivity]).
Qed.

(** *** More of the component's life cycle *)

Section LifeCycle.
Context `{Imports}.
Implicit Types (this : Component) (srv : Server) (f : fetch) (r : Report).

Lemma run_keeps_report srv (order : list fetch) :
  forall this, report (state (run srv order this)) = report (state this).
Proof.
  induction order as [| f order IH]; intros this; simpl; [reflexivity |].
  rewrite IH. apply (complete_frame srv f this slot_report).
  destruct f; discriminate.
Qed.

(** The completions of the fetches never replace the report, so they
    never end, nor start, the loading state: as long as the report has
    no key the page shows the loader, whatever the fetches delivered and
    in whatever order. *)
Theorem fetches_never_end_loading srv (order : list fetch) this :
  report (state (run srv order this)) = report (state this)
  /\ stillLoadingDataFromServer (run srv order this)
     = stillLoadingDataFromServer this
  /\ (length (Object_keys (report (state this))) = 0 ->
      snd (render (run srv order this)) = Normal (page loader)).
Proof.
  pose proof (run_keeps_report srv order this) as Hreport.
  split; [exact Hreport |]. split.
  - unfold stillLoadingDataFromServer. rewrite Hreport. reflexivity.
  - intros Hkeys. unfold render. cbv zeta.
    rewrite stillLoading_assign. unfold stillLoadingDataFromServer.
    rewrite Hreport, Hkeys. reflexivity.
Qed.

(** [componentDidUpdate] writes the report slot only, and only when the
    report prop changed; the loading state afterwards is decided by the
    keys of the new report alone; and the update commutes with the
    completion of any fetch. *)
Theorem componentDidUpdate_replaces_report_only (changed : bool) r this srv f :
  report (state (componentDidUpdate changed r this))
  = (if changed then r else report (state this))
  /\ (forall s, s <> slot_report ->
        same_slot s (state (componentDidUpdate changed r this)) (state this))
  /\ allTunnels (componentDidUpdate changed r this) = allTunnels this
  /\ stillLoadingDataFromServer (componentDidUpdate true r this)
     = Nat.eqb (length (Object_keys r)) 0
  /\ complete srv f (componentDidUpdate changed r this)
     = componentDidUpdate changed r (complete srv f this).
Proof.
  split; [destruct changed; reflexivity |].
  split; [intros s Hs; destruct changed, s; try reflexivity; contradiction |].
  split; [destruct changed; reflexivity |].
  split; [reflexivity |].
  destruct changed; [| reflexivity].
  unfold componentDidUpdate, complete, chain, then_, settles, calls_setState.
  destruct f; simpl.
  - destruct (authFetch srv _) as [res |]; simpl; [destruct (json res) |];
      reflexivity.
  - destruct (authFetch srv _) as [res |]; simpl; [destruct (json res) |];
      reflexivity.
  - destruct (getAllAgents srv); reflexivity.
  - destruct (getAllMachines srv); reflexivity.
Qed.

(** Once the four fetches started on mount have completed, in whatever
    order, every slot holds what its own fetch delivered, or its previous
    value when that fetch failed; the report and [allTunnels] are as
    before. *)
Theorem mount_settles_every_slot srv this (order : list fetch) :
  Permutation componentDidMount order ->
  state (run srv order this) = settled_state srv (state this)
  /\ allTunnels (run srv order this) = allTunnels this.
Proof.
  intros Hperm. rewrite <- (run_Permutation srv _ _ Hperm this).
  unfold run, componentDidMount, getCredentialsFromServer, settled_state, body_of.
  unfold complete, chain, then_, settles, calls_setState. simpl.
  destruct (authFetch srv "/api/propagation-credentials/stolen-credentials")
    as [res1 |]; simpl; [destruct (json res1) |];
    (destruct (authFetch srv "/api/propagation-credentials/configured-credentials")
       as [res2 |]; simpl; [destruct (json res2) |]);
    destruct (getAllAgents srv); destruct (getAllMachines srv);
    simpl; split; try reflexivity; destruct this as [[] ?]; reflexivity.
Qed.

End LifeCycle.

(** *** More of the page *)

Section PageDetails.
Context `{Imports}.
Implicit Types (this : Component) (gl : Glance).

(** An [exploited_cnt] that is not a finite number is not sanitised:
    whatever the number of scanned machines, the percentage handed to
    the progress line is then not finite either. *)
Theorem percentage_of_non_finite_count this gl :
  glance (report (state this)) = Some gl ->
  isFinite (exploited_cnt gl) = false ->
  exists sec percent,
    generateReportGlanceSection this = Normal sec
    /\ map (prop "percent") (elements "Line" sec) = [Some (PVal (JNum percent))]
    /\ isFinite percent = false.
Proof.
  intros Hgl Hcnt. unfold generateReportGlanceSection. rewrite Hgl.
  do 2 eexists. split; [reflexivity |]. split; [reflexivity |].
  unfold exploitPercentage.
  destruct (exploited_cnt gl) as [s | s | | s m e]; try discriminate Hcnt;
    destruct (num_of_nat (length (scanned gl))) as [s' | s' | | s' m' e'];
    reflexivity.
Qed.

(** Whenever [render] returns, it returns the page frame around either
    the loader or the five slots, the footer last; it leaves the React
    state as it is and sets [allTunnels] from the agents and machines of
    that state. *)
Theorem render_returns_framed_page this out :
  snd (render this) = Normal out ->
  (exists content,
      out = page content
      /\ (content = loader
          \/ exists o seg r g,
               content = Elem "div" [] [o; seg; r; g; generateReportFooter]))
  /\ state (fst (render this)) = state this
  /\ allTunnels (fst (render this))
     = getAllTunnels (agents (state this)) (machines (state this)).
Proof.
  intros Hout. split; [| split; reflexivity].
  unfold render in Hout. cbv zeta in Hout.
  destruct (stillLoadingDataFromServer (assign_allTunnels this)).
  - injection Hout as <-. exists loader. split; [reflexivity | left; reflexivity].
  - destruct (generateReportOverviewSection (assign_allTunnels this)) as [o |];
      [| discriminate Hout].
    destruct (generateSegmentationSection (assign_allTunnels this)) as [seg |];
      [| discriminate Hout].
    destruct (generateReportRecommendationsSection (assign_allTunnels this)) as [r |];
      [| discriminate Hout].
    destruct (generateReportGlanceSection (assign_allTunnels this)) as [g |];
      [| discriminate Hout].
    injection Hout as <-. eexists. split; [reflexivity |].
    right. exists o, seg, r, g. reflexivity.
Qed.

End PageDetails.

(** ** The statements on the concrete inventory *)

Import Fixture.

(** One machine of four breached: 25 percent, exactly. *)
Example exploitPercentage_quarter :
  exploitPercentage some_glance = num_of_Z 25.
Proof. reflexivity. Qed.

(** Nothing scanned: 0/0 is NaN, 300/0 is Infinity. *)
Example exploitPercentage_nothing_scanned :
  exploitPercentage nothing_scanned = S754_nan
  /\ exploitPercentage {| exploited_cnt := num_of_Z 3; scanned := [] |}
     = S754_infinity false.
Proof. split; reflexivity. Qed.

Example new_Set_first_seen :
  spread (new_Set ["b"; "a"; "b"; "c"; "a"]) = ["b"; "a"; "c"].
Proof. reflexivity. Qed.

(** A report with keys but without its overview cannot be rendered. *)
Example render_without_overview :
  snd (render (constructor
                 {| overview := None; glance := Some some_glance;
                    recommendations := None; cross_segment_issues := None;
                    other_keys := [] |}))
  = Throw TypeError.
Proof. reflexivity. Qed.

Example getTunnelIssue_none :
  getTunnelIssue (mounted_component some_report []) (num_of_Z 1) = Val JNull.
Proof. reflexivity. Qed.

Example recommendations_of_some_report :
  exists r,
    generateReportRecommendationsSection (mounted_component some_report []) = Normal r
    /\ elements "h2" r = [Elem "h2" [] [Text "Machine-related Recommendations"]]
    /\ length (elements "ReactMarkdown" r) = 3.
Proof. eexists. split; [reflexivity |]. split; reflexivity. Qed.

(** On the placeholder report the page is the frame around the loader. *)
Lemma render_loading_witness :
  length (Object_keys (report (state (constructor empty_report)))) = 0
  /\ snd (render (constructor empty_report)) = Normal (page loader).
Proof.
  split; [reflexivity |].
  apply (proj1 (@render_loading imports (constructor empty_report) eq_refl)).
Defined.

(** C1 as stated fails: on the placeholder report the render output is
    not the loading indicator alone, it also holds the two print
    buttons and the report header. *)
Lemma render_loading_keeps_frame :
  length (Object_keys empty_report) = 0
  /\ snd (render (constructor empty_report)) <> Normal loader
  /\ exists out,
       snd (render (constructor empty_report)) = Normal out
       /\ length (elements "PrintReportButton" out) = 2
       /\ length (elements "ReportHeader" out) = 1.
Proof.
  split; [reflexivity |]. split; [discriminate |].
  eexists. split; [reflexivity |]. split; reflexivity.
Qed.


(** With nothing scanned and nothing exploited the percentage is 0/0. *)
Lemma exploit_percentage_unguarded_witness :
  glance (report (state (mounted_component quiet_report []))) = Some nothing_scanned
  /\ scanned nothing_scanned = []
  /\ isFinite (num_div (num_mul (num_of_Z 100) (exploited_cnt nothing_scanned))
                       (num_of_nat (length (scanned nothing_scanned)))) = false.
Proof.
  split; [reflexivity |]. split; [reflexivity |].
  destruct (@exploit_percentage_unguarded imports
              (mounted_component quiet_report []) nothing_scanned eq_refl)
    as [sec [_ [_ Hnot_finite]]].
  exact (Hnot_finite eq_refl).
Defined.

Lemma zerologon_warning_precedes_remediation_witness :
  (zerologon_failed_restore zerologon_issue
   /\ issue_slots (generateIssue zerologon_issue)
      = Some (Frag [zerologonOverviewWithFailedPassResetWarning;
                    Elem "br" [] [];
                    Elem "li" [] [markdown (JStr "Restore the password.")]],
              Val (JStr "")))
  /\ (~ zerologon_failed_restore restored_issue
      /\ issue_slots (generateIssue restored_issue)
         = Some (markdown (JStr "Install the patch."), Val (JStr ""))).
Proof.
  assert (zerologon_failed_restore zerologon_issue) as Hz
    by (split; reflexivity).
  assert (~ zerologon_failed_restore restored_issue) as Hr
    by (intros [_ Hpw]; vm_compute in Hpw; discriminate Hpw).
  split; (split; [assumption |]).
  - rewrite (proj1 (@zerologon_warning_precedes_remediation imports zerologon_issue) Hz).
    reflexivity.
  - rewrite (proj1 (proj2 (@zerologon_warning_precedes_remediation imports
                             restored_issue) Hr)).
    reflexivity.
Defined.

Lemma segmentation_only_with_issues_witness :
  (length (@nil string) = 0
   /\ exists o seg r g,
        snd (render (mounted_component quiet_report []))
        = Normal (page (Elem "div" [] [o; seg; r; g; generateReportFooter]))
        /\ mounted_children [o; seg; r; g; generateReportFooter]
           = [o; r; g; generateReportFooter])
  /\ (length ["10.0.0.0/24 -> 10.0.1.0/24"] <> 0
      /\ exists o seg r g,
           snd (render (mounted_component some_report []))
           = Normal (page (Elem "div" [] [o; seg; r; g; generateReportFooter]))
           /\ mounted_children [o; seg; r; g; generateReportFooter]
              = [o; seg; r; g; generateReportFooter]
           /\ elements "h2" seg = [Elem "h2" [] [Text "Segmentation Issues"]]).
Proof.
  split; (split; [simpl; lia |]).
  - destruct (@segmentation_only_with_issues imports
                (mounted_component quiet_report [])
                no_exploits_overview nothing_scanned {| issues := [] |} []
                eq_refl eq_refl eq_refl eq_refl)
      as (o & seg & r & g & _ & _ & _ & _ & Hrender & Hnone & _).
    destruct (Hnone eq_refl) as [_ Hmounted].
    exists o, seg, r, g. split; assumption.
  - destruct (@segmentation_only_with_issues imports
                (mounted_component some_report [])
                some_overview some_glance
                {| issues := [("1", [zerologon_issue; bare_issue])] |}
                ["10.0.0.0/24 -> 10.0.1.0/24"]
                eq_refl eq_refl eq_refl eq_refl)
      as (o & seg & r & g & _ & _ & _ & _ & Hrender & _ & Hsome).
    destruct (Hsome ltac:(simpl; lia)) as (Hseg & _ & Hmounted).
    exists o, seg, r, g. split; [assumption |]. split; [assumption |].
    rewrite Hseg. reflexivity.
Defined.

Lemma manual_hostnames_deduplicated_witness :
  glance (report (state (mounted_component some_report agents_on_one_machine)))
  = Some some_glance
  /\ overview (report (state (mounted_component some_report agents_on_one_machine)))
     = Some some_overview
  /\ getManuallyStartedAgents agents_on_one_machine = [agent_on 1; agent_on 1]
  /\ exists out,
       generateReportOverviewSection (mounted_component some_report agents_on_one_machine)
       = Normal out
       /\ head (elements "ul" out) = Some (Elem "ul" [] [Arr [li_of "web"]]).
Proof.
  split; [reflexivity |]. split; [reflexivity |]. split; [reflexivity |].
  destruct (@manual_hostnames_deduplicated imports
              (mounted_component some_report agents_on_one_machine)
              some_glance some_overview eq_refl eq_refl)
    as (out & hosts & Hout & Hul & _ & _ & _ & Hone).
  exists out. split; [exact Hout |].
  rewrite Hul, (Hone (agent_on 1) (agent_on 1) eq_refl eq_refl). reflexivity.
Defined.

Lemma manual_hostnames_collapse_by_hostname_witness :
  getMachineByAgent (agent_on 1) two_machines
  <> getMachineByAgent (agent_on 2) two_machines
  /\ In (agent_on 1) (getManuallyStartedAgents agents_on_two_machines)
  /\ In (agent_on 2) (getManuallyStartedAgents agents_on_two_machines)
  /\ getMachineHostname (getMachineByAgent (agent_on 1) two_machines)
     = getMachineHostname (getMachineByAgent (agent_on 2) two_machines)
  /\ exists out hosts,
       generateReportOverviewSection (mounted_component some_report agents_on_two_machines)
       = Normal out
       /\ head (elements "ul" out) = Some (Elem "ul" [] [Arr (map li_of hosts)])
       /\ length (List.filter (String.eqb "web") hosts) = 1.
Proof.
  split; [discriminate |].
  split; [simpl; auto |]. split; [simpl; auto |]. split; [reflexivity |].
  destruct (@manual_hostnames_collapse_by_hostname imports
              (mounted_component some_report agents_on_two_machines)
              some_glance some_overview (agent_on 1) (agent_on 2)
              eq_refl eq_refl
              ltac:(simpl; auto) ltac:(simpl; auto) eq_refl)
    as (out & hosts & Hout & Hul & Hone & _).
  exists out, hosts. split; [exact Hout |]. split; [exact Hul | exact Hone].
Defined.

Lemma no_exploiters_text_or_methods_list_witness :
  (config_exploits no_exploits_overview = []
   /\ exists out,
        generateReportOverviewSection (mounted_component quiet_report []) = Normal out
        /\ has_text "No exploiters were enabled." out = true)
  /\ (config_exploits some_overview <> []
      /\ exists out,
           generateReportOverviewSection (mounted_component some_report []) = Normal out
           /\ has_text "No exploiters were enabled." out = false).
Proof.
  split.
  - split; [reflexivity |].
    destruct (@no_exploiters_text_or_methods_list imports
                (mounted_component quiet_report [])
                nothing_scanned no_exploits_overview eq_refl eq_refl)
      as (out & Hout & Hnone & _).
    exists out. split; [exact Hout |]. apply (Hnone eq_refl).
  - split; [discriminate |].
    destruct (@no_exploiters_text_or_methods_list imports
                (mounted_component some_report [])
                some_glance some_overview eq_refl eq_refl)
      as (out & Hout & _ & Hsome).
    exists out. split; [exact Hout |]. apply (Hsome ltac:(discriminate)).
Defined.

Lemma default_remediation_placeholder_witness :
  (~ zerologon_failed_restore bare_issue
   /\ bare_issue !! "remediation_suggestion" = None
   /\ exists remediation description,
        issue_slots (generateIssue bare_issue) = Some (remediation, description)
        /\ remediation = Elem "ReactMarkdown" [] [Text " 'No remediation available'"]
        /\ description = markdown (JStr "Weak password."))
  /\ (~ zerologon_failed_restore restored_issue
      /\ restored_issue !! "remediation_suggestion" = Some (JStr "Install the patch.")
      /\ exists remediation description,
           issue_slots (generateIssue restored_issue) = Some (remediation, description)
           /\ remediation = markdown (JStr "Install the patch.")
           /\ description = Val (JStr "")).
Proof.
  assert (~ zerologon_failed_restore bare_issue) as Hb
    by (intros [Hty _]; vm_compute in Hty; discriminate Hty).
  assert (~ zerologon_failed_restore restored_issue) as Hr
    by (intros [_ Hpw]; vm_compute in Hpw; discriminate Hpw).
  split; (split; [assumption |]); (split; [reflexivity |]).
  - destruct (@default_remediation_placeholder imports bare_issue)
      as (r & d & Hslots & Hrem & _ & _ & Hdesc).
    exists r, d. split; [exact Hslots |]. split.
    + apply (proj1 (Hrem Hb)). left. reflexivity.
    + apply (Hdesc (JStr "Weak password.")); [reflexivity | discriminate].
  - destruct (@default_remediation_placeholder imports restored_issue)
      as (r & d & Hslots & Hrem & _ & Hnodesc & _).
    exists r, d. split; [exact Hslots |]. split.
    + apply (proj2 (Hrem Hr) (JStr "Install the patch.")); [reflexivity | discriminate].
    + apply Hnodesc. left. reflexivity.
Defined.

Lemma fetches_write_disjoint_slots_witness :
  In AllAgents componentDidMount
  /\ slot_stolenCredentials <> slot_of AllAgents
  /\ same_slot slot_stolenCredentials
       (state (complete server AllAgents (constructor some_report)))
       (state (constructor some_report))
  /\ Permutation componentDidMount (rev componentDidMount)
  /\ run server (rev componentDidMount) (constructor some_report)
     = run server componentDidMount (constructor some_report).
Proof.
  assert (In AllAgents componentDidMount) as Hin by (simpl; auto).
  assert (slot_stolenCredentials <> slot_of AllAgents) as Hne by discriminate.
  assert (Permutation componentDidMount (rev componentDidMount)) as Hperm
    by apply Permutation_rev.
  destruct (@fetches_write_disjoint_slots imports server (constructor some_report))
    as (Hframe & _ & _ & _ & _ & _ & Horder).
  split; [exact Hin |]. split; [exact Hne |].
  split; [exact (Hframe AllAgents slot_stolenCredentials Hin Hne) |].
  split; [exact Hperm | exact (Horder _ Hperm)].
Defined.

Lemma failed_fetch_leaves_slot_empty_witness :
  fails server StolenCredentials (JStr "NetworkError")
  /\ outcome server StolenCredentials (constructor some_report)
     = Rejected (JStr "NetworkError")
  /\ stolenCredentials (state (run server (rev componentDidMount) (constructor some_report)))
     = JArr []
  /\ configuredCredentials
       (state (run server (rev componentDidMount) (constructor some_report)))
     = JArr [JStr "user:password"].
Proof.
  assert (fails server StolenCredentials (JStr "NetworkError")) as Hf by reflexivity.
  destruct (@failed_fetch_leaves_slot_empty imports server StolenCredentials
              (JStr "NetworkError") some_report (rev componentDidMount) Hf)
    as (Hskip & Hslot & _).
  split; [exact Hf |].
  split; [exact (proj1 (Hskip (constructor some_report))) |].
  split; [exact Hslot | reflexivity].
Defined.

(** *** The further properties on the concrete inventory *)

Lemma recommendations_heading_iff_issues_witness :
  (issues {| issues := [] |} = []
   /\ exists out,
        generateReportRecommendationsSection (mounted_component quiet_report [])
        = Normal out
        /\ mounted_children (children out) = [Elem "div" [] [Elem "ul" [] [Arr []]]])
  /\ (issues {| issues := [("1", [zerologon_issue; bare_issue])] |} <> []
      /\ exists out,
           generateReportRecommendationsSection (mounted_component some_report [])
           = Normal out
           /\ length (mounted_children (children out)) = 2).
Proof.
  split.
  - split; [reflexivity |].
    destruct (@recommendations_heading_iff_issues imports
                (mounted_component quiet_report []) {| issues := [] |} eq_refl)
      as (out & Hout & Hnone & _).
    exists out. split; [exact Hout | exact (Hnone eq_refl)].
  - split; [discriminate |].
    destruct (@recommendations_heading_iff_issues imports
                (mounted_component some_report [])
                {| issues := [("1", [zerologon_issue; bare_issue])] |} eq_refl)
      as (out & Hout & _ & Hsome).
    exists out. split; [exact Hout |].
    rewrite (Hsome ltac:(discriminate)). reflexivity.
Defined.

Lemma monkey_duration_shown_iff_truthy_witness :
  overview (report (state (mounted_component some_report []))) = Some some_overview
  /\ truthy (monkey_duration some_overview) = true
  /\ exists duration,
       getMonkeyDuration (mounted_component some_report []) = Normal duration
       /\ length (mounted duration) = 3.
Proof.
  split; [reflexivity |]. split; [reflexivity |].
  destruct (@monkey_duration_shown_iff_truthy imports
              (mounted_component some_report []) some_overview eq_refl)
    as (duration & Hduration & _ & Hshown).
  exists duration. split; [exact Hduration |].
  rewrite (Hshown eq_refl). reflexivity.
Defined.

Lemma detection_hint_iff_nothing_exploited_witness :
  glance (report (state (mounted_component quiet_report []))) = Some nothing_scanned
  /\ overview (report (state (mounted_component quiet_report [])))
     = Some no_exploits_overview
  /\ exploited_cnt nothing_scanned = num_of_Z 0
  /\ exists out,
       generateReportOverviewSection (mounted_component quiet_report []) = Normal out
       /\ has_text
            "To improve Infection Monkey's detection rates, try adding credentials under "
            out
          = true.
Proof.
  split; [reflexivity |]. split; [reflexivity |]. split; [reflexivity |].
  destruct (@detection_hint_iff_nothing_exploited imports
              (mounted_component quiet_report [])
              nothing_scanned no_exploits_overview eq_refl eq_refl)
    as (out & Hout & _ & Hhint & Hfalse).
  exists out. split; [exact Hout |].
  rewrite Hhint, (Hfalse (or_intror eq_refl)). reflexivity.
Defined.

Lemma scanned_ips_and_local_network_note_witness :
  glance (report (state (mounted_component some_report []))) = Some some_glance
  /\ overview (report (state (mounted_component some_report []))) = Some some_overview
  /\ config_ips some_overview <> []
  /\ exists out,
       generateReportOverviewSection (mounted_component some_report []) = Normal out
       /\ In (Elem "p" []
                [Text "The Monkey scans the following IPs:";
                 Elem "ul" [] [Arr [li_of "10.0.0.0/24"]]])
             (children out).
Proof.
  split; [reflexivity |]. split; [reflexivity |]. split; [discriminate |].
  destruct (@scanned_ips_and_local_network_note imports
              (mounted_component some_report [])
              some_glance some_overview eq_refl eq_refl)
    as (out & Hout & _ & Hlist & _).
  exists out. split; [exact Hout |]. exact (Hlist ltac:(discriminate)).
Defined.


Lemma placeholder_iff_suggestion_missing_witness :
  bare_issue !! "remediation_suggestion" = None
  /\ restored_issue !! "remediation_suggestion" = Some (JStr "Install the patch.")
  /\ (exists remediation description,
        issue_slots (generateIssue bare_issue) = Some (remediation, description)
        /\ remediation = Elem "ReactMarkdown" [] [Text " 'No remediation available'"])
  /\ (exists remediation description,
        issue_slots (generateIssue restored_issue) = Some (remediation, description)
        /\ remediation <> Elem "ReactMarkdown" [] [Text " 'No remediation available'"]).
Proof.
  split; [reflexivity |]. split; [reflexivity |]. split.
  - destruct (@placeholder_iff_suggestion_missing imports bare_issue)
      as (r & d & block & Hslots & Hblock & Hiff & _).
    exists r, d. split; [exact Hslots |].
    pose proof (proj2 Hiff (or_introl eq_refl)) as Hplaceholder.
    destruct Hblock as [-> | ->]; [exact Hplaceholder |].
    vm_compute in Hslots. discriminate Hslots.
  - destruct (@placeholder_iff_suggestion_missing imports restored_issue)
      as (r & d & block & Hslots & Hblock & _ & Hmarkdown & _).
    exists r, d. split; [exact Hslots |].
    pose proof (Hmarkdown (JStr "Install the patch.") eq_refl ltac:(discriminate))
      as Hblock_is.
    destruct Hblock as [-> | ->]; [rewrite Hblock_is |]; discriminate.
Defined.

Lemma fetches_never_end_loading_witness :
  length (Object_keys (report (state (constructor empty_report)))) = 0
  /\ snd (render (run server componentDidMount (constructor empty_report)))
     = Normal (page loader)
  /\ agents (state (run server componentDidMount (constructor empty_report)))
     = agents_on_two_machines.
Proof.
  split; [reflexivity |].
  destruct (@fetches_never_end_loading imports server componentDidMount
              (constructor empty_report))
    as (_ & _ & Hloader).
  split; [exact (Hloader eq_refl) | reflexivity].
Defined.

Lemma componentDidUpdate_replaces_report_only_witness :
  slot_agents <> slot_report
  /\ same_slot slot_agents
       (state (componentDidUpdate true some_report
                 (mounted_component empty_report agents_on_two_machines)))
       (state (mounted_component empty_report agents_on_two_machines))
  /\ stillLoadingDataFromServer
       (componentDidUpdate true some_report
          (mounted_component empty_report agents_on_two_machines))
     = false.
Proof.
  assert (slot_agents <> slot_report) as Hne by discriminate.
  destruct (@componentDidUpdate_replaces_report_only imports true some_report
              (mounted_component empty_report agents_on_two_machines)
              server AllAgents)
    as (_ & Hframe & _ & Hloading & _).
  split; [exact Hne |]. split; [exact (Hframe slot_agents Hne) |].
  rewrite Hloading. reflexivity.
Defined.

Lemma mount_settles_every_slot_witness :
  Permutation componentDidMount (rev componentDidMount)
  /\ state (run server (rev componentDidMount) (constructor some_report))
     = {| report := some_report;
          stolenCredentials := JArr [];
          configuredCredentials := JArr [JStr "user:password"];
          agents := agents_on_two_machines;
          machines := two_machines |}.
Proof.
  assert (Permutation componentDidMount (rev componentDidMount)) as Hperm
    by apply Permutation_rev.
  split; [exact Hperm |].
  rewrite (proj1 (@mount_settles_every_slot imports server
                    (constructor some_report) (rev componentDidMount) Hperm)).
  reflexivity.
Defined.

Lemma percentage_of_non_finite_count_witness :
  isFinite S754_nan = false
  /\ exists sec percent,
       generateReportGlanceSection
         (mounted_component
            {| overview := None;
               glance := Some {| exploited_cnt := S754_nan; scanned := [JStr "a"] |};
               recommendations := None; cross_segment_issues := None;
               other_keys := [] |} [])
       = Normal sec
       /\ map (prop "percent") (elements "Line" sec) = [Some (PVal (JNum percent))]
       /\ isFinite percent = false.
Proof.
  split; [reflexivity |].
  apply (@percentage_of_non_finite_count imports _
           {| exploited_cnt := S754_nan; scanned := [JStr "a"] |});
    reflexivity.
Defined.

Lemma render_returns_framed_page_witness :
  snd (render (constructor empty_report)) = Normal (page loader)
  /\ exists content,
       page loader = page content
       /\ (content = loader
           \/ exists o seg r g,
                content = Elem "div" [] [o; seg; r; g; generateReportFooter]).
Proof.
  split; [reflexivity |].
  exact (proj1 (@render_returns_framed_page imports (constructor empty_report)
                  (page loader) eq_refl)).
Defined.
